(** * mete_sads.py: testing METE's species-abundance predictions

    A shallow embedding of [run_test] and [rare_sp_count] from
    [src/mete_sads.py], with the imported modules ([mete],
    [macroeco_distributions], [weestats], the float part of [numpy]) taken
    as collaborators, and the properties of the per-site pipeline. *)

From Stdlib Require Import ZArith String List Reals Lra Lia.
From stdpp Require Import base tactics option list strings sorting.

Local Open Scope Z_scope.

(** ** Python values and exceptions *)

(** The exceptions that the modelled code can end with.  [ValueError] is
    what [np.column_stack] raises on columns of different lengths,
    [UnboundLocalError] what reading a local that was never assigned
    raises; [ZeroDivisionError] and [ModelFitError] are raised by
    collaborators only. *)
Inductive exn : Set :=
  | ValueError
  | ZeroDivisionError
  | UnboundLocalError
  | IOError
  | ModelFitError.

Inductive result (A : Type) : Type :=
  | Ok (a : A)
  | Raise (e : exn).
Arguments Ok {A} a.
Arguments Raise {A} e.

Global Instance result_ret : MRet result := λ A a, Ok a.
Global Instance result_bind : MBind result := λ A B k r,
  match r with
  | Ok a => k a
  | Raise e => Raise e
  end.

(** [len(x)] as a Python integer. *)
Definition len {A} (x : list A) : Z := Z.of_nat (length x).

(** Arithmetic of [np.int64] scalars wraps around. *)
Definition wrap64 (z : Z) : Z := (z + 2 ^ 63) mod 2 ^ 64 - 2 ^ 63.

(** The builtin [sum] over an [i8] array: it starts from [0] and adds the
    elements from left to right, each addition in [np.int64]. *)
Definition py_sum (x : list Z) : Z :=
  fold_left (λ acc a, wrap64 (acc + a)) x 0.

(** [np.sort] on an [i8] array (ascending) and on an [S9] array (bytes,
    lexicographic). *)
Definition np_sort (x : list Z) : list Z := merge_sort Z.le x.

Definition np_sort_bytes (x : list string) : list string :=
  merge_sort String.le x.

(** [list(set(x))]: the distinct elements of [x].  The iteration order of a
    Python set is not specified; [run_test] sorts the result, so any order
    gives the same [usites] there, and [remove_dups] is the one used. *)
Definition distinct (x : list string) : list string := remove_dups x.

(** ** The input table *)

(** One row of the array that [np.genfromtxt] returns for
    [dtype = "S9,i8,S9,i8"], [names = ['site','year','sp','ab']].  The table
    is the one-dimensional array of these rows, with the fields as loaded:
    [site] and [sp] are the byte strings the loader kept, [year] and [ab]
    its [i8] values. *)
Record AbundanceRecord : Set := {
  site : string;
  year : Z;
  sp : string;
  ab : Z
}.

(** [ifile["site"][ifile["site"] == u]] and [ifile["ab"][ifile["site"] == u]]. *)
Definition site_of (u : string) (ifile : list AbundanceRecord) : list string :=
  site <$> filter (λ r, site r = u) ifile.
Definition ab_of (u : string) (ifile : list AbundanceRecord) : list Z :=
  ab <$> filter (λ r, site r = u) ifile.

(** ** The rows written by [run_test] *)

(** A row of [results]: [site, obs, pred], the names under which the
    reporting functions read the first output file back. *)
Record sad_row : Set := {
  sad_site : string;
  obs : Z;
  pred : Z
}.

(** [np.column_stack((subsites, subab, pred))]: the three columns side by
    side, a [ValueError] unless they have one length. *)
Fixpoint stack_rows (a : list string) (b c : list Z) : list sad_row :=
  match a, b, c with
  | x :: a, y :: b, z :: c =>
      {| sad_site := x; obs := y; pred := z |} :: stack_rows a b c
  | _, _, _ => []
  end.

Definition column_stack (a : list string) (b c : list Z) : result (list sad_row) :=
  if decide (length a = length b ∧ length b = length c)
  then Ok (stack_rows a b c)
  else Raise ValueError.

Definition k1 : Z := 1.
Definition k2 : Z := 2.

(** The default of the [cutoff] argument of [run_test]. *)
Definition default_cutoff : Z := 9.

Section run_test.
(** The type of Python floats, kept abstract. *)
Context {F : Type}.

(** A row of [results2]: [site, S, N, p, weight]. *)
Record dist_row : Type := {
  dist_site : string;
  dist_S : Z;
  dist_N : Z;
  dist_p : F;
  dist_weight : F
}.

(** The two output files, as the rows appended to them so far. *)
Record outputs : Type := {
  f1 : list sad_row;
  f2 : list dist_row
}.

(** The imported functions that [run_test] calls.  Each may raise. *)
Record collaborators : Type := {
  genfromtxt : string → result (list AbundanceRecord);
  get_mete_sad : Z → Z → result (list Z * F);
  logser_ll : list Z → F → result F;
  pln_ll : F → F → list Z → result F;
  np_log : list Z → list F;
  np_mean : list F → F;
  np_std : list F → F;
  AICc : Z → F → Z → result F;
  aic_weight : F → F → Z → Z → result F
}.

Context (X : collaborators).

(** Lines 44-66 of the loop body: what one site contributes, [None] when
    the site is skipped. *)
Definition site_results (ifile : list AbundanceRecord) (cutoff : Z)
    (u : string) : result (option (list sad_row * dist_row)) :=
  let subsites := site_of u ifile in
  let S := len subsites in
  let subab := np_sort (ab_of u ifile) in
  let N := py_sum subab in
  if decide (S > cutoff) then
    '(pred, p) ← get_mete_sad X S N;
    let subab := reverse (np_sort subab) in
    L_logser ← logser_ll X subab p;
    let mu := np_mean X (np_log X subab) in
    let sigma := np_std X (np_log X subab) in
    L_pln ← pln_ll X mu sigma subab;
    AICc_logser ← AICc X k1 L_logser S;
    AICc_pln ← AICc X k2 L_pln S;
    weight ← aic_weight X AICc_logser AICc_pln S 4;
    results ← column_stack subsites subab pred;
    let results2 := {| dist_site := u; dist_S := S; dist_N := N;
                       dist_p := p; dist_weight := weight |} in
    Ok (Some (results, results2))
  else Ok None.

(** [f1.writerows(results)] and [f2.writerows(results2)]. *)
Definition writerows (o : option (list sad_row * dist_row))
    (st : outputs) : outputs :=
  match o with
  | Some (results, results2) =>
      {| f1 := f1 st ++ results; f2 := f2 st ++ [results2] |}
  | None => st
  end.

(** One iteration of the loop of [run_test]. *)
Definition run_test_site (ifile : list AbundanceRecord) (cutoff : Z)
    (u : string) (st : outputs) : result unit * outputs :=
  match site_results ifile cutoff u with
  | Ok o => (Ok (), writerows o st)
  | Raise e => (Raise e, st)
  end.

(** The loop over [usites]; an exception leaves it at once. *)
Fixpoint run_test_loop (ifile : list AbundanceRecord) (cutoff : Z)
    (usites : list string) (st : outputs) : result unit * outputs :=
  match usites with
  | [] => (Ok (), st)
  | u :: usites =>
      match run_test_site ifile cutoff u st with
      | (Ok _, st) => run_test_loop ifile cutoff usites st
      | (Raise e, st) => (Raise e, st)
      end
  end.

(** [usites = np.sort(list(set(ifile["site"])))]. *)
Definition usites (ifile : list AbundanceRecord) : list string :=
  np_sort_bytes (distinct (site <$> ifile)).

(** [run_test(input_filename, output_filename1, output_filename2, cutoff)],
    on the contents of the two output files (both opened for appending,
    after the input was read). *)
Definition run_test (input_filename : string) (cutoff : Z)
    (st : outputs) : result unit * outputs :=
  match genfromtxt X input_filename with
  | Ok ifile => run_test_loop ifile cutoff (usites ifile) st
  | Raise e => (Raise e, st)
  end.

End run_test.

Arguments dist_row : clear implicits.
Arguments outputs : clear implicits.
Arguments collaborators : clear implicits.

(** What the iteration for site [u] appends to each file, when it ends
    without an exception. *)
Definition site_rows1 {F} (X : collaborators F) (ifile : list AbundanceRecord)
    (cutoff : Z) (u : string) : list sad_row :=
  match site_results X ifile cutoff u with
  | Ok (Some (results, _)) => results
  | _ => []
  end.
Definition site_rows2 {F} (X : collaborators F) (ifile : list AbundanceRecord)
    (cutoff : Z) (u : string) : list (dist_row F) :=
  match site_results X ifile cutoff u with
  | Ok (Some (_, results2)) => [results2]
  | _ => []
  end.

(** The output files after more rows were appended. *)
Definition appended {F} (st : outputs F) (new1 : list sad_row)
    (new2 : list (dist_row F)) : outputs F :=
  {| f1 := f1 st ++ new1; f2 := f2 st ++ new2 |}.

(** The rows that a run added to each output file. *)
Definition written1 {F} (st st' : outputs F) : list sad_row :=
  drop (length (f1 st)) (f1 st').
Definition written2 {F} (st st' : outputs F) : list (dist_row F) :=
  drop (length (f2 st)) (f2 st').

(** ** [rare_sp_count] *)

(** The builtin [max] over an array, a [ValueError] on an empty one. *)
Definition py_max (x : list Z) : result Z :=
  match x with
  | [] => Raise ValueError
  | a :: x => Ok (fold_left Z.max x a)
  end.

(** Reading a local variable: an [UnboundLocalError] before its first
    assignment. *)
Definition read_local (v : option Z) : result Z :=
  match v with
  | Some a => Ok a
  | None => Raise UnboundLocalError
  end.

Section rare_sp_count.
(** [np.genfromtxt] for [dtype = "S9,i8,i8"], and the order in which
    [list(set(x))] lists the distinct elements of [x]. *)
Variable genfromtxt_sad : string → result (list sad_row).
Variable list_set : list string → list string.

(** [ifile["pred"][ifile["site"] == u]] and [ifile["obs"][ifile["site"] == u]]. *)
Definition pred_of (u : string) (ifile : list sad_row) : list Z :=
  pred <$> filter (λ r, sad_site r = u) ifile.
Definition obs_of (u : string) (ifile : list sad_row) : list Z :=
  obs <$> filter (λ r, sad_site r = u) ifile.

(** The [if]/[elif] chain of the loop body, on the locals [subpred] and
    [subobs]: no branch is taken for any other class name, and the locals
    keep what they held. *)
Definition assign_class (abundance_class : string) (pred obs : list Z)
    (locals : option Z * option Z) : result (option Z * option Z) :=
  if decide (abundance_class = "singleton") then
    Ok (Some (len (filter (λ a, a = 1) pred)),
        Some (len (filter (λ a, a = 1) obs)))
  else if decide (abundance_class = "doubleton") then
    Ok (Some (len (filter (λ a, a = 2) pred)),
        Some (len (filter (λ a, a = 2) obs)))
  else if decide (abundance_class = "dominant") then
    subpred ← py_max pred;
    subobs ← py_max obs;
    Ok (Some subpred, Some subobs)
  else if decide (abundance_class = "rare") then
    Ok (Some (len (filter (λ a, a ≤ 10) pred)),
        Some (len (filter (λ a, a ≤ 10) obs)))
  else Ok locals.

Fixpoint rare_sp_count_loop (ifile : list sad_row) (abundance_class : string)
    (usites : list string) (locals : option Z * option Z)
    (pred_class obs_class : list Z) : result (list Z * list Z) :=
  match usites with
  | [] => Ok (pred_class, obs_class)
  | u :: usites =>
      locals ← assign_class abundance_class (pred_of u ifile) (obs_of u ifile)
                 locals;
      subpred ← read_local locals.1;
      let pred_class := pred_class ++ [subpred] in
      subobs ← read_local locals.2;
      let obs_class := obs_class ++ [subobs] in
      rare_sp_count_loop ifile abundance_class usites locals
        pred_class obs_class
  end.

Definition rare_sp_count (input_filename abundance_class : string)
    : result (list Z * list Z) :=
  ifile ← genfromtxt_sad input_filename;
  let usites := list_set (sad_site <$> ifile) in
  rare_sp_count_loop ifile abundance_class usites (None, None) [] [].

End rare_sp_count.

(** ** The [weestats] functions, over the reals *)

(** Modelled from the spec: [weestats.AICc], which [run_test] imports and
    whose source is not part of the repository.  The spec gives
    [AICc = -2·logLikelihood + 2·k + (2·k·(k+1))/(S−k−1)], failing when
    [S−k−1 ≤ 0]. *)
Definition AICc_denominator (k n : Z) : Z := n - k - 1.

Definition weestats_AICc (k : Z) (L : R) (n : Z) : result R :=
  if decide (AICc_denominator k n ≤ 0) then Raise ModelFitError
  else Ok (-2 * L + 2 * IZR k
           + (2 * IZR k * (IZR k + 1)) / IZR (AICc_denominator k n))%R.

(** Modelled from the spec: [weestats.aic_weight], which [run_test] imports
    and whose source is not part of the repository.  The spec gives
    [weight = 1 / (1 + exp(-0.5·(AICc_logser − AICc_pln)))], and the
    sentinel [-1] when the number of observations is below the cutoff. *)
Definition weestats_aic_weight (AICc1 AICc2 : R) (n cutoff : Z) : R :=
  if decide (n < cutoff) then (-1)%R
  else (1 / (1 + exp (- (1 / 2) * (AICc1 - AICc2))))%R.


Definition with_weestats (X : collaborators R) : collaborators R := {|
  genfromtxt := genfromtxt X;
  get_mete_sad := get_mete_sad X;
  logser_ll := logser_ll X;
  pln_ll := pln_ll X;
  np_log := np_log X;
  np_mean := np_mean X;
  np_std := np_std X;
  AICc := weestats_AICc;
  aic_weight := λ AICc1 AICc2 n cutoff,
    Ok (weestats_aic_weight AICc1 AICc2 n cutoff)
|}.

(** ** Concrete inputs *)

Definition abundance (u : string) (a : Z) : AbundanceRecord :=
  {| site := u; year := 2009; sp := "sp"; ab := a |}.

(** Integers for floats, a constant predicted abundance per species. *)
Definition flat_collaborators (ifile : list AbundanceRecord) : collaborators Z := {|
  genfromtxt := λ _, Ok ifile;
  get_mete_sad := λ S N, Ok (repeat 1 (Z.to_nat S), 0);
  logser_ll := λ _ _, Ok 0;
  pln_ll := λ _ _ _, Ok 0;
  np_log := λ x, x;
  np_mean := λ _, 0;
  np_std := λ _, 0;
  AICc := λ _ _ _, Ok 0;
  aic_weight := λ _ _ _ _, Ok 0
|}.

(** A predictor that lists its abundances in ascending order. *)
Definition ascending_collaborators (ifile : list AbundanceRecord) : collaborators Z := {|
  genfromtxt := λ _, Ok ifile;
  get_mete_sad := λ S N, Ok (Z.of_nat <$> seq 1 (Z.to_nat S), 0);
  logser_ll := λ _ _, Ok 0;
  pln_ll := λ _ _ _, Ok 0;
  np_log := λ x, x;
  np_mean := λ _, 0;
  np_std := λ _, 0;
  AICc := λ _ _ _, Ok 0;
  aic_weight := λ _ _ _ _, Ok 0
|}.

(** A predictor that fails on the sites with exactly five individuals. *)
Definition failing_collaborators (ifile : list AbundanceRecord) : collaborators Z := {|
  genfromtxt := λ _, Ok ifile;
  get_mete_sad := λ S N,
    if decide (N = 5) then Raise ModelFitError
    else Ok (repeat 1 (Z.to_nat S), 0);
  logser_ll := λ _ _, Ok 0;
  pln_ll := λ _ _ _, Ok 0;
  np_log := λ x, x;
  np_mean := λ _, 0;
  np_std := λ _, 0;
  AICc := λ _ _ _, Ok 0;
  aic_weight := λ _ _ _ _, Ok 0
|}.

(** Reals for floats, with constant likelihoods. *)
Definition real_collaborators (ifile : list AbundanceRecord) : collaborators R := {|
  genfromtxt := λ _, Ok ifile;
  get_mete_sad := λ S N, Ok (repeat 1 (Z.to_nat S), (/ 2)%R);
  logser_ll := λ _ _, Ok (-20)%R;
  pln_ll := λ _ _ _, Ok (-21)%R;
  np_log := λ x, IZR <$> x;
  np_mean := λ _, 0%R;
  np_std := λ _, 0%R;
  AICc := weestats_AICc;
  aic_weight := λ a b n c, Ok (weestats_aic_weight a b n c)
|}.

Definition three_sites : list AbundanceRecord :=
  [abundance "C" 9; abundance "B" 5; abundance "A" 3; abundance "C" 2].

(** Two sites, [A] with four records and [B] with three. *)
Definition mixed_sites : list AbundanceRecord :=
  [abundance "B" 2; abundance "A" 5; abundance "A" 1; abundance "B" 7;
   abundance "A" 3; abundance "B" 1; abundance "A" 9].

Definition site_A : list AbundanceRecord :=
  abundance "A" <$> [1; 1; 2; 5; 10; 20; 3; 4; 6; 11].

Definition no_rows {F} : outputs F := {| f1 := []; f2 := [] |}.

(** ** Exact totals *)

(** The total of an array in unbounded integers, against which the wrapping
    [sum] is measured. *)
Definition total (x : list Z) : Z := foldr Z.add 0 x.

(** The range of [np.int64]. *)
Definition int64 (z : Z) : Prop := - 2 ^ 63 ≤ z < 2 ^ 63.

(** ** More concrete inputs *)


(** The records of [three_sites] in the opposite order, under other years
    and species names. *)
Definition three_sites_again : list AbundanceRecord :=
  (λ r, {| site := site r; year := year r + 1; sp := "other"; ab := ab r |})
    <$> reverse three_sites.

(** The two columns of the input table that [run_test] reads. *)
Definition site_ab (ifile : list AbundanceRecord) : list (string * Z) :=
  (λ r, (site r, ab r)) <$> ifile.

(** ** The value of an abundance class *)

(** [len(x[x == a])], [len(x[x <= a])] and [max(x)] on a non-empty array. *)
Definition count_eq (a : Z) (x : list Z) : Z := len (filter (λ v, v = a) x).
Definition count_le (a : Z) (x : list Z) : Z := len (filter (λ v, v ≤ a) x).
Definition maximum (x : list Z) : Z :=
  match x with
  | [] => 0
  | a :: x => fold_left Z.max x a
  end.

(** What the documented classes compute for the abundances of one site. *)
Definition class_value (abundance_class : string) (x : list Z) : Z :=
  if decide (abundance_class = "singleton") then count_eq 1 x
  else if decide (abundance_class = "doubleton") then count_eq 2 x
  else if decide (abundance_class = "dominant") then maximum x
  else count_le 10 x.

Definition abundance_classes : list string :=
  ["singleton"; "doubleton"; "rare"; "dominant"].

(** The rows of a site [A] with the predicted values 20, 1, 1, 3 and the
    observed values 15, 1, 2, 4, among those of a site [B]. *)
Definition interleaved_rows : list sad_row :=
  [ {| sad_site := "B"; obs := 40; pred := 50 |};
    {| sad_site := "A"; obs := 1; pred := 1 |};
    {| sad_site := "A"; obs := 15; pred := 20 |};
    {| sad_site := "B"; obs := 1; pred := 1 |};
    {| sad_site := "A"; obs := 2; pred := 1 |};
    {| sad_site := "A"; obs := 4; pred := 3 |} ].

(** Species-level rows of two sites, as [run_test] writes them. *)
Definition two_site_rows : list sad_row :=
  stack_rows (replicate 4 "A") [15; 4; 2; 1] [20; 3; 1; 1]
  ++ stack_rows (replicate 3 "B") [12; 1; 1] [9; 2; 1].

(** ** The reporting functions *)

(** Floats, as far as the reporting functions use them: comparison, the
    value of an integer and of a decimal literal ([float_dec 4 1] for
    [0.4]), product, quotient, difference, power, [round(x, ndigits)],
    [str(x)] and [str(round(x))]. *)
Class Float (F : Type) : Type := {
  float_le : relation F;
  float_le_dec : RelDecision float_le;
  float_lt : relation F;
  float_lt_dec : RelDecision float_lt;
  float_of_int : Z → F;
  float_dec : Z → nat → F;
  float_mul : F → F → F;
  float_div : F → F → F;
  float_sub : F → F → F;
  float_pow : F → Z → F;
  float_round : F → Z → F;
  float_str : F → string;
  float_str_round : F → string
}.
#[global] Existing Instance float_le_dec.
#[global] Existing Instance float_lt_dec.

(** The order of the floats that are numbers (no NaN), with the edges of
    the bins of [plot_weights] in the order of their literals. *)
Class FloatOrder (F : Type) `{Float F} : Prop := {
  float_le_trans : ∀ x y z : F, float_le x y → float_le y z → float_le x z;
  float_le_total : ∀ x y : F, float_le x y ∨ float_le y x;
  float_lt_le : ∀ x y : F, float_lt x y ↔ ¬ float_le y x;
  float_edges :
    float_le (float_of_int 0) (float_dec 4 1)
    ∧ float_le (float_dec 4 1) (float_dec 6 1)
    ∧ float_le (float_dec 6 1) (float_of_int 1)
}.

(** Numbers with one decimal, as integers in tenths. *)
Definition tenths : Float Z := {|
  float_le := Z.le;
  float_le_dec := _;
  float_lt := Z.lt;
  float_lt_dec := _;
  float_of_int := λ z, 10 * z;
  float_dec := λ m k, match k with O => 10 * m | 1%nat => m | _ => m / 10 end;
  float_mul := λ x y, x * y / 10;
  float_div := λ x y, 10 * x / y;
  float_sub := λ x y, x - y;
  float_pow := λ x n, x ^ n / 10 ^ (n - 1);
  float_round := λ x _, x;
  float_str := λ _, "x";
  float_str_round := λ _, "x"
|}.

(** [np.histogram(a, bins)[0]]: the number of elements of [a] in each bin,
    every bin half-open but the last, which includes its right edge. *)
Fixpoint np_histogram `{Float F} (a : list F) (bins : list F) : list Z :=
  match bins with
  | [] => []
  | lo :: bins' =>
      match bins' with
      | [] => []
      | [hi] =>
          [len (filter (λ w, float_le lo w ∧ float_le w hi) a)]
      | hi :: _ =>
          len (filter (λ w, float_le lo w ∧ float_lt w hi) a)
          :: np_histogram a bins'
      end
  end.

(** The heights of the bars: the counts, or the counts scaled to
    [cts * 100 / sum(cts)], kept as the numerators and the denominator of
    that elementwise quotient. *)
Inductive bar_heights : Set :=
  | Counts (cts : list Z)
  | Quotient (num : list Z) (den : Z).

(** The calls that draw, on [matplotlib] and on the hulls of [macroeco], in
    the order in which they are made. *)
Inductive plt_call (F : Type) : Type :=
  | plt_figure (num : Z)
  | plt_subplot (spec : Z)
  | obj_bar (left : list F) (height : bar_heights) (width : F) (color : string)
  | obj_set_title (title : string)
  | obj_set_ylabel (label : string)
  | plt_plot (x y : list Z)
  | plt_xlim (lo hi : Z)
  | plt_ylim (lo hi : Z)
  | plt_title (title : string)
  | plt_xlabel (label : string)
  | plt_ylabel (label : string)
  | plt_annotate (text : string)
  | plt_xticks (positions : list F) (labels : list string)
  | plt_legend (labels : list string) (loc : string)
  | macroeco_confidence_hull (color : string) (alpha : F)
  | plt_loglog (x y : list F) (fmt : string)
  | plt_xlim_float (lo hi : F)
  | plt_ylim_float (lo hi : F)
  | plt_show.
Arguments plt_figure {F} num.
Arguments plt_subplot {F} spec.
Arguments obj_bar {F} left height width color.
Arguments obj_set_title {F} title.
Arguments obj_set_ylabel {F} label.
Arguments plt_plot {F} x y.
Arguments plt_xlim {F} lo hi.
Arguments plt_ylim {F} lo hi.
Arguments plt_title {F} title.
Arguments plt_xlabel {F} label.
Arguments plt_ylabel {F} label.
Arguments plt_annotate {F} text.
Arguments plt_xticks {F} positions labels.
Arguments plt_legend {F} labels loc.
Arguments macroeco_confidence_hull {F} color alpha.
Arguments plt_loglog {F} x y fmt.
Arguments plt_xlim_float {F} lo hi.
Arguments plt_ylim_float {F} lo hi.
Arguments plt_show {F}.

(** How a reporting function ends: it returns, or an index is out of
    range, or a collaborator raises. *)
Inductive report (A : Type) : Type :=
  | Returned (a : A)
  | IndexError
  | Failed (e : exn).
Arguments Returned {A} a.
Arguments IndexError {A}.
Arguments Failed {A} e.

Section plot_weights.
Context `{Float F}.

(** [np.genfromtxt] for [dtype = "S9,i8,i8,f8,f8"]. *)
Variable genfromtxt_dist : string → result (list (dist_row F)).

(** [plot_weights(input_filename, data, left, width, color, title)]: its
    outcome and the calls it makes. *)
Definition plot_weights (input_filename data : string) (left : list F)
    (width : F) (color title : string) : result unit * list (plt_call F) :=
  match genfromtxt_dist input_filename with
  | Raise e => (Raise e, [])
  | Ok ifile =>
      let weights := dist_weight <$> ifile in
      let weights := filter (λ w, float_le (float_of_int 0) w) weights in
      let bins := [float_of_int 0; float_dec 4 1; float_dec 6 1;
                   float_of_int 1] in
      let cts := np_histogram weights bins in
      let height :=
        if decide (data = "raw") then Counts cts
        else Quotient ((λ c, wrap64 (c * 100)) <$> cts) (py_sum cts) in
      (Ok (), [plt_subplot 111; obj_bar left height width color;
               obj_set_title title; obj_set_ylabel "Number of sites"])
  end.

Definition colors : list string := ["k"; "r"; "g"; "b"].

(** The loop of [cross_taxa_weight_plot], from index [i] on, with the
    local [width], which is assigned in the loop body only. *)
Fixpoint cross_taxa_weight_plot_loop (n : Z) (i : Z)
    (input_filenames : list string) (width : option F)
    : report (option F) * list (plt_call F) :=
  match input_filenames with
  | [] => (Returned width, [])
  | input_filename :: input_filenames =>
      let width :=
        float_round (float_div (float_dec 10 1) (float_of_int (3 + n * 3))) 2 in
      let left := [float_mul width (float_of_int (i + 1));
                   float_mul width (float_of_int (i + n + 2));
                   float_mul width (float_of_int (i + n + 6))] in
      match colors !! Z.to_nat i with
      | None => (IndexError, [])
      | Some color =>
          match plot_weights input_filename "percent" left width color "" with
          | (Raise e, calls) => (Failed e, calls)
          | (Ok _, calls) =>
              let '(r, calls') :=
                cross_taxa_weight_plot_loop n (i + 1) input_filenames
                  (Some width) in
              (r, calls ++ calls')
          end
      end
  end.

Definition cross_taxa_weight_plot (input_filenames : list string)
    : report unit * list (plt_call F) :=
  let n := len input_filenames in
  match cross_taxa_weight_plot_loop n 0 input_filenames None with
  | (Returned width, calls) =>
      let calls := plt_figure 1 :: calls
                   ++ [plt_ylabel "Percentage of sites"] in
      match width with
      | None => (Failed UnboundLocalError, calls)
      | Some width =>
          let tick d :=
            float_mul (float_div (float_of_int (3 + n * 3)) d) width in
          (Returned (),
           calls
           ++ [plt_xticks [tick (float_dec 48 1); tick (float_dec 185 2);
                           tick (float_dec 114 2)]
                          ["Log-normal"; "Indeterminate"; "Log-series"];
               plt_legend ["CBC"; "BBS"; "Gentry"] "upper left";
               plt_show])
      end
  | (IndexError, calls) => (IndexError, plt_figure 1 :: calls)
  | (Failed e, calls) => (Failed e, plt_figure 1 :: calls)
  end.

End plot_weights.

(** Site-level rows with weights in tenths, one of them the sentinel. *)
Definition weights_rows : list (dist_row Z) :=
  (λ w, {| dist_site := "A"; dist_S := 10; dist_N := 63; dist_p := 5;
           dist_weight := w |})
    <$> [3; -10; 4; 10; 6; 0; 12; 5].

Section ab_class_test_plot.
Context `{Float F}.

(** The five results of [stats.linregress]: slope, intercept, r-value,
    p-value and standard error. *)
Definition regression : Type := F * F * F * F * F.

(** [np.genfromtxt] and the order of [list(set(x))] for [rare_sp_count],
    [stats.linregress] and [macroeco.plot_color_by_pt_dens]. *)
Variable genfromtxt_sad : string → result (list sad_row).
Variable list_set : list string → list string.
Variable linregress : list Z → list Z → result regression.
Variable plot_color_by_pt_dens : list Z → list Z → Z → Z → result unit.

(** [max(max(pred), max(obs))]. *)
Definition axis_max (pred obs : list Z) : result Z :=
  a ← py_max pred;
  b ← py_max obs;
  Ok (Z.max a b).

(** The loop of [ab_class_test_plot], from index [i] on. *)
Fixpoint ab_class_test_plot_loop (input_filename : string) (i : Z)
    (classes : list string) (regr_results : list regression)
    : result (list regression) * list (plt_call F) :=
  match classes with
  | [] => (Ok regr_results, [])
  | abundance_class :: classes =>
      match rare_sp_count genfromtxt_sad list_set input_filename
              abundance_class with
      | Raise e => (Raise e, [])
      | Ok (pred, obs) =>
          match linregress pred obs with
          | Raise e => (Raise e, [])
          | Ok (slope, intercept, r_value, p_value, std_err) =>
              let results2 := (slope, intercept, r_value, p_value, std_err) in
              let regr_results := regr_results ++ [results2] in
              match plot_color_by_pt_dens pred obs 1 i with
              | Raise e => (Raise e, [])
              | Ok _ =>
                  match axis_max pred obs with
                  | Raise e => (Raise e, [])
                  | Ok m =>
                      (* [m] is an [np.int64] for ['dominant'], and a count
                         far below [2 ^ 63] for the other classes *)
                      let hi := wrap64 (m + 1) in
                      let r2 :=
                        ("r2 = "
                         +:+ float_str (float_round (float_pow r_value 2) 2))
                          %string in
                      let b :=
                        ("y = " +:+ float_str (float_round slope 2)
                         +:+ "x + " +:+ float_str_round intercept)%string in
                      let calls :=
                        [plt_plot [0; hi] [0; hi]; plt_xlim 0 hi; plt_ylim 0 hi;
                         plt_title abundance_class;
                         plt_xlabel "Predicted number of species";
                         plt_ylabel "Observed number of species";
                         plt_annotate b; plt_annotate r2] in
                      let '(r, calls') :=
                        ab_class_test_plot_loop input_filename (i + 1) classes
                          regr_results in
                      (r, calls ++ calls')
                  end
              end
          end
      end
  end.

Definition ab_class_test_plot (input_filename : string)
    : result (list regression) * list (plt_call F) :=
  match ab_class_test_plot_loop input_filename 0 abundance_classes [] with
  | (Ok regr_results, calls) => (Ok regr_results, calls ++ [plt_show])
  | (Raise e, calls) => (Raise e, calls)
  end.

End ab_class_test_plot.

Section multi_taxa_conf_hulls.
Context `{Float F}.

(** [np.genfromtxt], [macroeco.confidence_hull] (which draws the hull and
    returns its points) and [np.max]. *)
Variable genfromtxt_sad : string → result (list sad_row).
Variable confidence_hull :
  list Z → list Z → Z → Z → string → F → result (list F).
Variable np_max : list F → result F.

Definition hull_colors : list string := ["r"; "g"; "b"; "k"; "c"].

(** The builtin [max] of a list of two: the second if it is greater than
    the first, else the first. *)
Definition max2 (a b : F) : F := if decide (float_lt a b) then b else a.

(** The loop of [multi_taxa_conf_hulls], from index [i] on. *)
Fixpoint multi_taxa_conf_hulls_loop (logscale : Z) (i : Z)
    (input_filenames : list string) (plotmax : F)
    : report F * list (plt_call F) :=
  match input_filenames with
  | [] => (Returned plotmax, [])
  | filename :: input_filenames =>
      match genfromtxt_sad filename with
      | Raise e => (Failed e, [])
      | Ok infile =>
          match hull_colors !! Z.to_nat i with
          | None => (IndexError, [])
          | Some color =>
              let alpha :=
                float_sub (float_dec 75 2)
                  (float_div (float_of_int i) (float_of_int 10)) in
              match confidence_hull (pred <$> infile) (obs <$> infile) 2
                      logscale color alpha with
              | Raise e => (Failed e, [])
              | Ok hull_points =>
                  match np_max hull_points with
                  | Raise e => (Failed e, [macroeco_confidence_hull color alpha])
                  | Ok m =>
                      let '(r, calls) :=
                        multi_taxa_conf_hulls_loop logscale (i + 1)
                          input_filenames (max2 plotmax m) in
                      (r, macroeco_confidence_hull color alpha :: calls)
                  end
              end
          end
      end
  end.

(** [multi_taxa_conf_hulls(input_filenames, radius, conf_interval,
    logscale)]; the source reads neither [radius] nor [conf_interval]. *)
Definition multi_taxa_conf_hulls (input_filenames : list string)
    (radius conf_interval : Z) (logscale : Z)
    : report unit * list (plt_call F) :=
  match multi_taxa_conf_hulls_loop logscale 0 input_filenames
          (float_of_int 0) with
  | (Returned plotmax, calls) =>
      let hi := float_mul plotmax (float_of_int 2) in
      (Returned (),
       calls
       ++ [plt_loglog [float_dec 5 1; hi] [float_dec 5 1; hi] "k-";
           plt_xlim_float (float_dec 5 1) hi;
           plt_ylim_float (float_dec 5 1) hi;
           plt_xlabel "Predicted abundance";
           plt_ylabel "Observed abundance";
           plt_show])
  | (IndexError, calls) => (IndexError, calls)
  | (Failed e, calls) => (Failed e, calls)
  end.

End multi_taxa_conf_hulls.

(** The maximum of the hull that [multi_taxa_conf_hulls] draws for the file
    at index [i], when the file loads and the hull is drawn. *)
Definition hull_max `{Float F}
    (genfromtxt_sad : string → result (list sad_row))
    (confidence_hull : list Z → list Z → Z → Z → string → F → result (list F))
    (np_max : list F → result F) (logscale i : Z) (filename : string)
    : option F :=
  match genfromtxt_sad filename, hull_colors !! Z.to_nat i with
  | Ok infile, Some color =>
      let alpha :=
        float_sub (float_dec 75 2)
          (float_div (float_of_int i) (float_of_int 10)) in
      match confidence_hull (pred <$> infile) (obs <$> infile) 2 logscale
              color alpha with
      | Ok hull_points =>
          match np_max hull_points with
          | Ok m => Some m
          | Raise _ => None
          end
      | Raise _ => None
      end
  | _, _ => None
  end.

(** The colours of the hulls among the calls. *)
Definition hull_colors_of {F} (calls : list (plt_call F)) : list string :=
  calls ≫= λ c,
    match c with macroeco_confidence_hull color _ => [color] | _ => [] end.

(** A hull of one point, ten times the number of rows of the table. *)
Definition one_point_hull : list Z → list Z → Z → Z → string → Z
    → result (list Z) :=
  λ pred _ _ _ _ _, Ok [10 * len pred].

(** The titles among the calls. *)
Definition titles {F} (calls : list (plt_call F)) : list string :=
  calls ≫= λ c, match c with plt_title title => [title] | _ => [] end.

(** The colours and the heights of the bars among the calls. *)
Definition bar_colors {F} (calls : list (plt_call F)) : list string :=
  calls ≫= λ c, match c with obj_bar _ _ _ color => [color] | _ => [] end.
Definition bar_heights_of {F} (calls : list (plt_call F)) : list bar_heights :=
  calls ≫= λ c, match c with obj_bar _ height _ _ => [height] | _ => [] end.

(** A loader that returns [weights_rows] for every file. *)
Definition weights_loader : string → result (list (dist_row Z)) :=
  λ _, Ok weights_rows.

(** * Properties *)

(** ** Sorting *)

Lemma np_sort_Sorted x : Sorted Z.le (np_sort x).
Proof. apply (Sorted_merge_sort Z.le). Qed.

Lemma np_sort_Permutation x : np_sort x ≡ₚ x.
Proof. apply (merge_sort_Permutation Z.le). Qed.

Lemma descending_Sorted x : Sorted (flip Z.le) (reverse (np_sort x)).
Proof. apply Sorted_reverse, np_sort_Sorted. Qed.

Lemma descending_Permutation x : reverse (np_sort (np_sort x)) ≡ₚ x.
Proof. by rewrite reverse_Permutation, !np_sort_Permutation. Qed.

Lemma descending_length x : length (reverse (np_sort (np_sort x))) = length x.
Proof. by rewrite descending_Permutation. Qed.

(** Whatever order the set of sites is listed in, sorting it gives the
    same [usites]. *)
Lemma np_sort_bytes_set_order x y :
  y ≡ₚ distinct x → np_sort_bytes y = np_sort_bytes (distinct x).
Proof.
  intros Hy. apply (Sorted_unique String.le).
  - apply (Sorted_merge_sort String.le).
  - apply (Sorted_merge_sort String.le).
  - unfold np_sort_bytes. by rewrite !merge_sort_Permutation.
Qed.

Lemma NoDup_usites ifile : NoDup (usites ifile).
Proof.
  unfold usites, np_sort_bytes, distinct.
  rewrite merge_sort_Permutation. apply NoDup_remove_dups.
Qed.

Lemma elem_of_usites ifile u : u ∈ usites ifile ↔ u ∈ site <$> ifile.
Proof.
  unfold usites, np_sort_bytes, distinct.
  rewrite merge_sort_Permutation. apply elem_of_remove_dups.
Qed.

(** ** [np.column_stack] *)

Lemma stack_rows_columns a : ∀ b c,
  length a = length b → length b = length c →
  sad_site <$> stack_rows a b c = a ∧ obs <$> stack_rows a b c = b
  ∧ pred <$> stack_rows a b c = c.
Proof.
  induction a as [|x a IH]; intros [|y b] [|z c] Hab Hbc;
    simplify_eq/=; [done|].
  destruct (IH b c) as (-> & -> & ->); auto.
Qed.

Lemma stack_rows_length a b c :
  length a = length b → length b = length c →
  length (stack_rows a b c) = length a.
Proof.
  intros Hab Hbc. destruct (stack_rows_columns a b c Hab Hbc) as (Ha & _).
  by rewrite <-Ha at 2; rewrite length_fmap.
Qed.

Lemma site_of_ab_of_length u ifile : length (ab_of u ifile) = length (site_of u ifile).
Proof. unfold ab_of, site_of. by rewrite !length_fmap. Qed.

Lemma site_of_all u ifile : Forall (λ v, v = u) (site_of u ifile).
Proof.
  unfold site_of. apply Forall_fmap, Forall_forall.
  by intros r [? _]%list_elem_of_filter.
Qed.

(** ** One site *)

Section site.
Context {F : Type} (X : collaborators F).
Implicit Types (ifile : list AbundanceRecord) (cutoff : Z) (u : string).

Lemma site_results_skip ifile cutoff u :
  len (site_of u ifile) ≤ cutoff → site_results X ifile cutoff u = Ok None.
Proof. intros HS. unfold site_results. case_decide; [lia|done]. Qed.

(** What a site that was fitted went through. *)
Lemma site_results_Some ifile cutoff u results results2 :
  site_results X ifile cutoff u = Ok (Some (results, results2)) →
  let S := len (site_of u ifile) in
  let N := py_sum (np_sort (ab_of u ifile)) in
  let subab := reverse (np_sort (np_sort (ab_of u ifile))) in
  cutoff < S ∧
  ∃ pred p L_logser L_pln AICc_logser AICc_pln weight,
    get_mete_sad X S N = Ok (pred, p)
    ∧ logser_ll X subab p = Ok L_logser
    ∧ pln_ll X (np_mean X (np_log X subab)) (np_std X (np_log X subab)) subab
      = Ok L_pln
    ∧ AICc X k1 L_logser S = Ok AICc_logser
    ∧ AICc X k2 L_pln S = Ok AICc_pln
    ∧ aic_weight X AICc_logser AICc_pln S 4 = Ok weight
    ∧ length pred = length (site_of u ifile)
    ∧ results = stack_rows (site_of u ifile) subab pred
    ∧ results2 = {| dist_site := u; dist_S := S; dist_N := N;
                    dist_p := p; dist_weight := weight |}.
Proof.
  unfold site_results. intros H. case_decide as HS; [|done].
  split; [lia|].
  destruct (get_mete_sad X _ _) as [[pred p]|] eqn:Hmete; [|done].
  simpl in H.
  destruct (logser_ll X _ _) as [L1|] eqn:HL1; [|done]. simpl in H.
  destruct (pln_ll X _ _ _) as [L2|] eqn:HL2; [|done]. simpl in H.
  destruct (AICc X k1 _ _) as [a1|] eqn:Ha1; [|done]. simpl in H.
  destruct (AICc X k2 _ _) as [a2|] eqn:Ha2; [|done]. simpl in H.
  destruct (aic_weight X _ _ _ _) as [w|] eqn:Hw; [|done]. simpl in H.
  unfold column_stack in H. case_decide as Hlen; [|done].
  simpl in H. simplify_eq.
  exists pred, p, L1, L2, a1, a2, w. repeat split; try done.
  destruct Hlen as [Hl1 Hl2]. by rewrite Hl1, Hl2.
Qed.

Lemma site_results_rows ifile cutoff u results results2 :
  site_results X ifile cutoff u = Ok (Some (results, results2)) →
  length results = length (site_of u ifile)
  ∧ Forall (λ r, sad_site r = u) results
  ∧ obs <$> results = reverse (np_sort (np_sort (ab_of u ifile)))
  ∧ dist_site results2 = u
  ∧ dist_S results2 = len (site_of u ifile).
Proof.
  intros (HS & pred & p & L1 & L2 & a1 & a2 & w & _ & _ & _ & _ & _ & _
          & Hlen & -> & ->)%site_results_Some.
  assert (length (site_of u ifile)
          = length (reverse (np_sort (np_sort (ab_of u ifile))))) as Hab.
  { by rewrite descending_length, site_of_ab_of_length. }
  assert (length (reverse (np_sort (np_sort (ab_of u ifile)))) = length pred)
    as Hbc by congruence.
  destruct (stack_rows_columns _ _ _ Hab Hbc) as (Hsite & Hobs & _).
  split_and!; [by apply stack_rows_length| |done..].
  apply (Forall_fmap sad_site (λ v, v = u)). rewrite Hsite.
  apply site_of_all.
Qed.

(** A site above the cutoff is not skipped. *)
Lemma site_results_None ifile cutoff u :
  site_results X ifile cutoff u = Ok None → len (site_of u ifile) ≤ cutoff.
Proof.
  unfold site_results. intros H. case_decide as HS; [|lia]. exfalso.
  destruct (get_mete_sad X _ _) as [[pred p]|]; [|done]. simpl in H.
  destruct (logser_ll X _ _); [|done]. simpl in H.
  destruct (pln_ll X _ _ _); [|done]. simpl in H.
  destruct (AICc X k1 _ _); [|done]. simpl in H.
  destruct (AICc X k2 _ _); [|done]. simpl in H.
  destruct (aic_weight X _ _ _ _); [|done]. simpl in H.
  destruct (column_stack _ _ _); done.
Qed.

Lemma site_rows1_site ifile cutoff u :
  Forall (λ r, sad_site r = u) (site_rows1 X ifile cutoff u).
Proof.
  unfold site_rows1.
  destruct (site_results X ifile cutoff u) as [[[results results2]|]|] eqn:H;
    try by constructor.
  by apply site_results_rows in H as (_ & ? & _).
Qed.

Lemma site_rows2_site ifile cutoff u :
  Forall (λ r, dist_site r = u) (site_rows2 X ifile cutoff u).
Proof.
  unfold site_rows2.
  destruct (site_results X ifile cutoff u) as [[[results results2]|]|] eqn:H;
    try by constructor.
  apply site_results_rows in H as (_ & _ & _ & ? & _).
  by repeat constructor.
Qed.

End site.

(** ** The loop over the sites *)

Section loop.
Context {F : Type} (X : collaborators F).
Implicit Types (ifile : list AbundanceRecord) (cutoff : Z) (u : string).
Implicit Types (st : outputs F) (us : list string).

Lemma appended_nil st : appended st [] [] = st.
Proof. destruct st. unfold appended. simpl. by rewrite !app_nil_r. Qed.

Lemma appended_appended st a1 a2 b1 b2 :
  appended (appended st a1 a2) b1 b2 = appended st (a1 ++ b1) (a2 ++ b2).
Proof. unfold appended. simpl. by rewrite !app_assoc. Qed.

Lemma written_appended st new1 new2 :
  written1 st (appended st new1 new2) = new1
  ∧ written2 st (appended st new1 new2) = new2.
Proof. unfold written1, written2. simpl. by rewrite !drop_app_length. Qed.

Lemma run_test_site_rows ifile cutoff u st :
  run_test_site X ifile cutoff u st =
    match site_results X ifile cutoff u with
    | Ok _ => (Ok (), appended st (site_rows1 X ifile cutoff u)
                                  (site_rows2 X ifile cutoff u))
    | Raise e => (Raise e, st)
    end.
Proof.
  unfold run_test_site, site_rows1, site_rows2.
  destruct (site_results X ifile cutoff u) as [[[results results2]|]|];
    simpl; [done| |done].
  by rewrite appended_nil.
Qed.

(** The loop stops at the first site whose fit raises, with the rows of
    the sites before it written. *)
Lemma run_test_loop_done ifile cutoff us : ∀ st,
  ∃ done rest,
    us = done ++ rest
    ∧ (run_test_loop X ifile cutoff us st).2 =
        appended st (done ≫= site_rows1 X ifile cutoff)
                    (done ≫= site_rows2 X ifile cutoff)
    ∧ match (run_test_loop X ifile cutoff us st).1 with
      | Ok _ => rest = []
      | Raise e => ∃ u rest', rest = u :: rest'
                              ∧ site_results X ifile cutoff u = Raise e
      end.
Proof.
  induction us as [|u us IH]; intros st.
  - exists [], []. simpl. by rewrite appended_nil.
  - simpl. rewrite run_test_site_rows.
    destruct (site_results X ifile cutoff u) as [o|e] eqn:Hu.
    + destruct (IH (appended st (site_rows1 X ifile cutoff u)
                                (site_rows2 X ifile cutoff u)))
        as (done & rest & -> & Hst & Hres).
      exists (u :: done), rest. split; [done|].
      rewrite Hst, appended_appended, !bind_cons. split; [done|].
      exact Hres.
    + exists [], (u :: us). simpl. rewrite appended_nil.
      split_and!; [done..|]. exists u, us. by split.
Qed.

Lemma run_test_loop_Ok ifile cutoff us : ∀ st,
  (∀ v, v ∈ us → ∃ o, site_results X ifile cutoff v = Ok o) →
  run_test_loop X ifile cutoff us st =
    (Ok (), appended st (us ≫= site_rows1 X ifile cutoff)
                        (us ≫= site_rows2 X ifile cutoff)).
Proof.
  induction us as [|u us IH]; intros st Hus.
  - simpl. by rewrite appended_nil.
  - simpl. rewrite run_test_site_rows.
    destruct (Hus u) as [o ->]; [left|].
    rewrite IH, appended_appended; [done|].
    intros v Hv. apply Hus. by right.
Qed.

Lemma run_test_loop_Raise ifile cutoff pre u post e : ∀ st st',
  run_test_loop X ifile cutoff pre st = (Ok (), st') →
  site_results X ifile cutoff u = Raise e →
  run_test_loop X ifile cutoff (pre ++ u :: post) st = (Raise e, st').
Proof.
  induction pre as [|v pre IH]; intros st st' Hpre Hu; simpl in *.
  - simplify_eq. unfold run_test_site. by rewrite Hu.
  - destruct (run_test_site X ifile cutoff v st) as [[[]|e'] st1]; [|done].
    by apply IH.
Qed.

End loop.

(** ** Rows by site *)

Section by_site.
Context {A : Type} (key : A → string) (rows : string → list A).
Hypothesis rows_key : ∀ v, Forall (λ r, key r = v) (rows v).

Lemma filter_key_all u l :
  Forall (λ r, key r = u) l → filter (λ r, key r = u) l = l.
Proof.
  induction 1 as [|r l Hr _ IH]; [done|].
  by rewrite filter_cons_True, IH.
Qed.

Lemma filter_key_none u v l :
  u ≠ v → Forall (λ r, key r = v) l → filter (λ r, key r = u) l = [].
Proof.
  intros Huv. induction 1 as [|r l Hr _ IH]; [done|].
  rewrite filter_cons_False; [done|congruence].
Qed.

Lemma filter_bind_other u us :
  u ∉ us → filter (λ r, key r = u) (us ≫= rows) = [].
Proof.
  induction us as [|v us IH]; intros Hu; [done|].
  apply not_elem_of_cons in Hu as [Huv Hu].
  by rewrite bind_cons, filter_app, IH, (filter_key_none u v), app_nil_r.
Qed.

Lemma filter_bind_empty u us :
  rows u = [] → filter (λ r, key r = u) (us ≫= rows) = [].
Proof.
  intros Hu. induction us as [|v us IH]; [done|].
  rewrite bind_cons, filter_app, IH, app_nil_r.
  destruct (decide (u = v)) as [<-|Huv]; [by rewrite Hu|].
  by apply (filter_key_none u v).
Qed.

(** Rows carry the name of the site they were written for, so those of
    one site are found again among the rows of a run. *)
Lemma filter_bind_site u us :
  NoDup us → u ∈ us → filter (λ r, key r = u) (us ≫= rows) = rows u.
Proof.
  induction 1 as [|v us Hv Hus IH]; intros Hu; [by apply elem_of_nil in Hu|].
  rewrite bind_cons, filter_app.
  apply elem_of_cons in Hu as [->|Hu].
  - by rewrite filter_bind_other, filter_key_all, app_nil_r.
  - rewrite (filter_key_none u v), IH; [done..| |done].
    intros ->. done.
Qed.

End by_site.

(** ** Sites above the cutoff *)

Lemma run_test_loop_app {F} (X : collaborators F) ifile cutoff us vs : ∀ st,
  run_test_loop X ifile cutoff (us ++ vs) st =
    match run_test_loop X ifile cutoff us st with
    | (Ok _, st') => run_test_loop X ifile cutoff vs st'
    | (Raise e, st') => (Raise e, st')
    end.
Proof.
  induction us as [|u us IH]; intros st; simpl; [done|].
  destruct (run_test_site X ifile cutoff u st) as [[[]|e] st1]; [apply IH|done].
Qed.

(** C1, as stated, fails: with the AICc of the spec, which fails when
    [S - k - 1 ≤ 0], and the cutoff 2, site [B] of [mixed_sites] has richness
    3, above the cutoff, and the run ends at it without a site-level row for
    it. *)
Lemma run_test_site_without_rows :
  ¬ (∀ (X : collaborators R) input cutoff st ifile u,
       genfromtxt X input = Ok ifile →
       u ∈ site <$> ifile →
       cutoff < len (site_of u ifile) →
       len (filter (λ r, sad_site r = u)
              (written1 st (run_test X input cutoff st).2))
       = len (site_of u ifile)
       ∧ length (filter (λ r, dist_site r = u)
                   (written2 st (run_test X input cutoff st).2)) = 1%nat).
Proof.
  intros H.
  destruct (H (real_collaborators mixed_sites) "sads.csv" 2 no_rows
              mixed_sites "B") as [_ Hrow].
  - reflexivity.
  - vm_compute. left.
  - vm_compute. done.
  - change (run_test (real_collaborators mixed_sites) "sads.csv" 2 no_rows)
      with (run_test_loop (real_collaborators mixed_sites) mixed_sites 2
              (usites mixed_sites) no_rows) in Hrow.
    destruct (run_test_loop_done (real_collaborators mixed_sites) mixed_sites
                2 (usites mixed_sites) no_rows)
      as (done & rest & _ & Hst & _).
    rewrite Hst in Hrow.
    destruct (written_appended no_rows
                (done ≫= site_rows1 (real_collaborators mixed_sites)
                           mixed_sites 2)
                (done ≫= site_rows2 (real_collaborators mixed_sites)
                           mixed_sites 2)) as [_ Hw].
    rewrite Hw in Hrow.
    rewrite (filter_bind_empty dist_site) in Hrow; [done| |].
    + apply site_rows2_site.
    + assert (site_results (real_collaborators mixed_sites) mixed_sites 2 "B"
              = Raise ModelFitError) as HB by reflexivity.
      unfold site_rows2. by rewrite HB.
Qed.

(** C1, amended. For every site whose richness [S] (its number of input
    records) exceeds the cutoff, if the fit of that site and of every site
    before it in sorted order ends without an exception, the run writes
    exactly [S] species-level rows and exactly one site-level row for that
    site, whatever happens at the sites after it; the observed column of
    those [S] rows is in descending order and is a permutation of the
    site's input abundances. *)
Theorem run_test_emits_fitted_site {F} (X : collaborators F) input cutoff st
    ifile pre u post :
  genfromtxt X input = Ok ifile →
  usites ifile = pre ++ u :: post →
  (∀ v, v ∈ pre ++ [u] → ∃ o, site_results X ifile cutoff v = Ok o) →
  cutoff < len (site_of u ifile) →
  let st' := (run_test X input cutoff st).2 in
  let rows := filter (λ r, sad_site r = u) (written1 st st') in
  len rows = len (site_of u ifile)
  ∧ Sorted (flip Z.le) (obs <$> rows)
  ∧ obs <$> rows ≡ₚ ab_of u ifile
  ∧ length (filter (λ r, dist_site r = u) (written2 st st')) = 1%nat.
Proof.
  intros Hin Hus Hfits HS. simpl. unfold run_test. rewrite Hin, Hus.
  replace (pre ++ u :: post) with ((pre ++ [u]) ++ post)
    by by rewrite <-app_assoc.
  rewrite run_test_loop_app, (run_test_loop_Ok X _ _ (pre ++ [u]) st Hfits).
  destruct (run_test_loop_done X ifile cutoff post
              (appended st ((pre ++ [u]) ≫= site_rows1 X ifile cutoff)
                           ((pre ++ [u]) ≫= site_rows2 X ifile cutoff)))
    as (done & rest & Hpost & -> & _).
  rewrite appended_appended, <-!bind_app.
  destruct (written_appended st
              (((pre ++ [u]) ++ done) ≫= site_rows1 X ifile cutoff)
              (((pre ++ [u]) ++ done) ≫= site_rows2 X ifile cutoff))
    as [-> ->].
  assert (NoDup ((pre ++ [u]) ++ done)) as Hnd.
  { pose proof (NoDup_usites ifile) as Hall.
    rewrite Hus, Hpost in Hall.
    replace (pre ++ u :: done ++ rest) with (((pre ++ [u]) ++ done) ++ rest)
      in Hall by by rewrite <-!app_assoc.
    by apply NoDup_app in Hall as [? _]. }
  assert (u ∈ (pre ++ [u]) ++ done) as Hu.
  { rewrite !elem_of_app. left. right. left. }
  rewrite (filter_bind_site sad_site), (filter_bind_site dist_site);
    auto using site_rows1_site, site_rows2_site.
  destruct (Hfits u) as [[[results results2]|] Hfit].
  { apply elem_of_app. right. left. }
  2:{ apply site_results_None in Hfit. lia. }
  unfold site_rows1, site_rows2. rewrite Hfit.
  apply site_results_rows in Hfit as (Hlen & _ & -> & _).
  split_and!.
  - unfold len. by rewrite Hlen.
  - apply descending_Sorted.
  - apply descending_Permutation.
  - done.
Qed.

Lemma run_test_emits_fitted_site_witness :
  let X := real_collaborators mixed_sites in
  let st' := (run_test X "sads.csv" 2 no_rows).2 in
  let rows := filter (λ r, sad_site r = "A") (written1 no_rows st') in
  genfromtxt X "sads.csv" = Ok mixed_sites
  ∧ usites mixed_sites = [] ++ "A" :: ["B"]
  ∧ 2 < len (site_of "A" mixed_sites)
  ∧ len rows = len (site_of "A" mixed_sites)
  ∧ Sorted (flip Z.le) (obs <$> rows)
  ∧ obs <$> rows ≡ₚ ab_of "A" mixed_sites
  ∧ length (filter (λ r, dist_site r = "A") (written2 no_rows st')) = 1%nat.
Proof.
  intros X st' rows.
  assert (genfromtxt X "sads.csv" = Ok mixed_sites) as H1 by reflexivity.
  assert (usites mixed_sites = [] ++ "A" :: ["B"]) as H2 by reflexivity.
  assert (∀ v, v ∈ [] ++ ["A"] →
            ∃ o, site_results X mixed_sites 2 v = Ok o) as H3.
  { intros v ->%list_elem_of_singleton. eexists. reflexivity. }
  assert (2 < len (site_of "A" mixed_sites)) as H4 by (vm_compute; done).
  split_and!; [done..| | | |];
    apply (run_test_emits_fitted_site X "sads.csv" 2 no_rows mixed_sites []
             "A" ["B"] H1 H2 H3 H4).
Defined.

(** ** Sites at or below the cutoff *)

(** C2. For every site whose richness [S] is at most the cutoff, the
    iteration for that site ends normally and leaves both files as they
    were, and no row of a run (whatever its outcome) is for that site. *)
Theorem run_test_skips_site {F} (X : collaborators F) input cutoff st ifile u :
  genfromtxt X input = Ok ifile →
  len (site_of u ifile) ≤ cutoff →
  run_test_site X ifile cutoff u st = (Ok (), st)
  ∧ filter (λ r, sad_site r = u)
      (written1 st (run_test X input cutoff st).2) = []
  ∧ filter (λ r, dist_site r = u)
      (written2 st (run_test X input cutoff st).2) = [].
Proof.
  intros Hin HS. pose proof (site_results_skip X ifile cutoff u HS) as Hskip.
  split.
  { unfold run_test_site. by rewrite Hskip. }
  unfold run_test. rewrite Hin.
  destruct (run_test_loop_done X ifile cutoff (usites ifile) st)
    as (done & rest & _ & -> & _).
  destruct (written_appended st (done ≫= site_rows1 X ifile cutoff)
              (done ≫= site_rows2 X ifile cutoff)) as [-> ->].
  split.
  - apply (filter_bind_empty sad_site); [apply site_rows1_site|].
    unfold site_rows1. by rewrite Hskip.
  - apply (filter_bind_empty dist_site); [apply site_rows2_site|].
    unfold site_rows2. by rewrite Hskip.
Qed.

Lemma run_test_skips_site_witness :
  genfromtxt (flat_collaborators three_sites) "sads.csv" = Ok three_sites
  ∧ len (site_of "C" three_sites) ≤ default_cutoff
  ∧ run_test_site (flat_collaborators three_sites) three_sites default_cutoff
      "C" no_rows = (Ok (), no_rows)
  ∧ filter (λ r, sad_site r = "C")
      (written1 no_rows
         (run_test (flat_collaborators three_sites) "sads.csv" default_cutoff
            no_rows).2) = []
  ∧ filter (λ r, dist_site r = "C")
      (written2 no_rows
         (run_test (flat_collaborators three_sites) "sads.csv" default_cutoff
            no_rows).2) = [].
Proof.
  assert (genfromtxt (flat_collaborators three_sites) "sads.csv"
          = Ok three_sites) as H1 by reflexivity.
  assert (len (site_of "C" three_sites) ≤ default_cutoff) as H2
    by (vm_compute; discriminate).
  split_and!; [done..| | |];
    apply (run_test_skips_site (flat_collaborators three_sites) "sads.csv"
             default_cutoff no_rows three_sites "C" H1 H2).
Defined.

(** ** The predicted column *)

(** C3, as stated, fails: with a predictor that lists its abundances in
    ascending order, the predicted column written for site [C] (two
    species) is [1; 2]. *)
Lemma run_test_pred_not_descending :
  ¬ Sorted (flip Z.le)
      (pred <$> filter (λ r, sad_site r = "C")
         (written1 no_rows
            (run_test (ascending_collaborators three_sites) "sads.csv" 1
               no_rows).2)).
Proof.
  assert (pred <$> filter (λ r, sad_site r = "C")
            (written1 no_rows
               (run_test (ascending_collaborators three_sites) "sads.csv" 1
                  no_rows).2) = [1; 2]) as -> by reflexivity.
  intros Hsorted. apply Sorted_inv in Hsorted as [_ Hhd].
  apply HdRel_inv in Hhd. unfold flip in Hhd. lia.
Qed.

(** C3, amended. For every processed site, the predicted column of the
    species-level rows is the sequence that the predictor returned for
    [(S, N)], in the order in which the predictor returned it, paired by
    position with the observed abundances in descending order. *)
Theorem pred_column_as_predicted {F} (X : collaborators F) ifile cutoff u
    results results2 :
  site_results X ifile cutoff u = Ok (Some (results, results2)) →
  get_mete_sad X (len (site_of u ifile)) (py_sum (np_sort (ab_of u ifile)))
    = Ok (pred <$> results, dist_p results2)
  ∧ obs <$> results = reverse (np_sort (np_sort (ab_of u ifile)))
  ∧ Sorted (flip Z.le) (obs <$> results).
Proof.
  intros Hfit.
  pose proof (site_results_rows X _ _ _ _ _ Hfit) as (_ & _ & Hobs & _).
  apply site_results_Some in Hfit
    as (_ & predicted & p & ? & ? & ? & ? & ? & Hmete & _ & _ & _ & _ & _
        & Hlen & -> & ->).
  split_and!; [|done|rewrite Hobs; apply descending_Sorted].
  simpl. rewrite Hmete. do 2 f_equal. symmetry.
  destruct (stack_rows_columns (site_of u ifile)
              (reverse (np_sort (np_sort (ab_of u ifile)))) predicted)
    as (_ & _ & ->).
  - by rewrite descending_length, site_of_ab_of_length.
  - rewrite descending_length, site_of_ab_of_length. congruence.
  - done.
Qed.

Lemma pred_column_as_predicted_witness :
  let X := ascending_collaborators three_sites in
  let results :=
    [ {| sad_site := "C"; obs := 9; pred := 1 |};
      {| sad_site := "C"; obs := 2; pred := 2 |} ] in
  let results2 :=
    {| dist_site := "C"; dist_S := 2; dist_N := 11; dist_p := 0;
       dist_weight := 0 |} in
  site_results X three_sites 1 "C" = Ok (Some (results, results2))
  ∧ get_mete_sad X (len (site_of "C" three_sites))
      (py_sum (np_sort (ab_of "C" three_sites)))
    = Ok (pred <$> results, dist_p results2)
  ∧ obs <$> results = reverse (np_sort (np_sort (ab_of "C" three_sites)))
  ∧ Sorted (flip Z.le) (obs <$> results).
Proof.
  intros X results results2.
  assert (site_results X three_sites 1 "C" = Ok (Some (results, results2)))
    as H1 by reflexivity.
  split; [done|].
  exact (pred_column_as_predicted X three_sites 1 "C" results results2 H1).
Defined.

(** ** A failing collaborator *)

(** C4, as stated, fails: when the predictor raises for site [B], the run
    does not go on to site [C], whose fit would succeed. *)
Lemma run_test_does_not_continue :
  ¬ (∀ (X : collaborators Z) input cutoff ifile st u e v o,
       genfromtxt X input = Ok ifile →
       site_results X ifile cutoff u = Raise e →
       v ∈ usites ifile →
       site_results X ifile cutoff v = Ok (Some o) →
       fst (run_test X input cutoff st) = Ok ()
       ∧ filter (λ r, dist_site r = v)
           (written2 st (run_test X input cutoff st).2) = [o.2]).
Proof.
  intros H.
  destruct (H (failing_collaborators three_sites) "sads.csv" 0 three_sites
              no_rows "B" ModelFitError "C"
              ([ {| sad_site := "C"; obs := 9; pred := 1 |};
                 {| sad_site := "C"; obs := 2; pred := 1 |} ],
               {| dist_site := "C"; dist_S := 2; dist_N := 11; dist_p := 0;
                  dist_weight := 0 |})) as [Hres _]; try reflexivity.
  - vm_compute. do 2 right. left.
  - vm_compute in Hres. discriminate.
Qed.

(** C4, amended. When a collaborator raises for one site, the run ends
    there with that exception: the rows of the sites that come before it in
    sorted order are written, and no row is written for the failing site or
    for any site after it. *)
Theorem run_test_aborts_at_failure {F} (X : collaborators F) input cutoff
    ifile st pre u post e st' :
  genfromtxt X input = Ok ifile →
  usites ifile = pre ++ u :: post →
  run_test_loop X ifile cutoff pre st = (Ok (), st') →
  site_results X ifile cutoff u = Raise e →
  run_test X input cutoff st = (Raise e, st')
  ∧ ∀ v, v ∈ u :: post →
      filter (λ r, sad_site r = v) (written1 st st') = []
      ∧ filter (λ r, dist_site r = v) (written2 st st') = [].
Proof.
  intros Hin Hus Hpre Hu. split.
  { unfold run_test. rewrite Hin, Hus. by apply run_test_loop_Raise. }
  intros v Hv.
  assert (v ∉ pre) as Hvpre.
  { pose proof (NoDup_usites ifile) as Hnd. rewrite Hus in Hnd.
    apply NoDup_app in Hnd as (_ & Hdisj & _). intros ?. by eapply Hdisj. }
  destruct (run_test_loop_done X ifile cutoff pre st)
    as (done & rest & Hsplit & Hst & Hres).
  rewrite Hpre in Hst, Hres. simpl in Hst, Hres. subst rest st'.
  rewrite app_nil_r in Hsplit. subst done.
  destruct (written_appended st (pre ≫= site_rows1 X ifile cutoff)
              (pre ≫= site_rows2 X ifile cutoff)) as [-> ->].
  split.
  - apply (filter_bind_other sad_site); [apply site_rows1_site|done].
  - apply (filter_bind_other dist_site); [apply site_rows2_site|done].
Qed.

Lemma run_test_aborts_at_failure_witness :
  let X := failing_collaborators three_sites in
  let st' := appended no_rows [ {| sad_site := "A"; obs := 3; pred := 1 |} ]
               [ {| dist_site := "A"; dist_S := 1; dist_N := 3; dist_p := 0;
                    dist_weight := 0 |} ] in
  genfromtxt X "sads.csv" = Ok three_sites
  ∧ usites three_sites = ["A"] ++ "B" :: ["C"]
  ∧ run_test_loop X three_sites 0 ["A"] no_rows = (Ok (), st')
  ∧ site_results X three_sites 0 "B" = Raise ModelFitError
  ∧ run_test X "sads.csv" 0 no_rows = (Raise ModelFitError, st')
  ∧ ∀ v, v ∈ "B" :: ["C"] →
      filter (λ r, sad_site r = v) (written1 no_rows st') = []
      ∧ filter (λ r, dist_site r = v) (written2 no_rows st') = [].
Proof.
  intros X st'.
  assert (genfromtxt X "sads.csv" = Ok three_sites) as H1 by reflexivity.
  assert (usites three_sites = ["A"] ++ "B" :: ["C"]) as H2 by reflexivity.
  assert (run_test_loop X three_sites 0 ["A"] no_rows = (Ok (), st')) as H3
    by reflexivity.
  assert (site_results X three_sites 0 "B" = Raise ModelFitError) as H4
    by reflexivity.
  split_and!; [done..| |];
    apply (run_test_aborts_at_failure X "sads.csv" 0 three_sites no_rows
             ["A"] "B" ["C"] ModelFitError st' H1 H2 H3 H4).
Defined.

(** ** The [weestats] collaborators *)

Lemma site_results_fit {F} (X : collaborators F) ifile cutoff u predicted p
    L_logser L_pln AICc_logser AICc_pln weight :
  let S := len (site_of u ifile) in
  let N := py_sum (np_sort (ab_of u ifile)) in
  let subab := reverse (np_sort (np_sort (ab_of u ifile))) in
  cutoff < S →
  get_mete_sad X S N = Ok (predicted, p) →
  length predicted = length (site_of u ifile) →
  logser_ll X subab p = Ok L_logser →
  pln_ll X (np_mean X (np_log X subab)) (np_std X (np_log X subab)) subab
    = Ok L_pln →
  AICc X k1 L_logser S = Ok AICc_logser →
  AICc X k2 L_pln S = Ok AICc_pln →
  aic_weight X AICc_logser AICc_pln S 4 = Ok weight →
  site_results X ifile cutoff u =
    Ok (Some (stack_rows (site_of u ifile) subab predicted,
              {| dist_site := u; dist_S := S; dist_N := N; dist_p := p;
                 dist_weight := weight |})).
Proof.
  intros S N subab HS Hmete Hlen HL1 HL2 Ha1 Ha2 Hw.
  unfold site_results. fold S N subab. rewrite decide_True by lia.
  rewrite Hmete. simpl. rewrite HL1. simpl. rewrite HL2. simpl.
  rewrite Ha1. simpl. rewrite Ha2. simpl. rewrite Hw. simpl.
  unfold column_stack. rewrite decide_True; [done|].
  unfold subab. by rewrite descending_length, site_of_ab_of_length, Hlen.
Qed.

Lemma weestats_AICc_defined k L n :
  0 < AICc_denominator k n → ∃ a, weestats_AICc k L n = Ok a.
Proof. intros Hd. unfold weestats_AICc. rewrite decide_False by lia. eauto. Qed.

Lemma weestats_aic_weight_range a b n c :
  (weestats_aic_weight a b n c = (-1)%R ↔ n < c)
  ∧ (¬ n < c → (0 <= weestats_aic_weight a b n c <= 1)%R).
Proof.
  unfold weestats_aic_weight. case_decide as Hn; [by split|].
  pose proof (exp_pos (- (1 / 2) * (a - b))) as Hexp.
  set (x := exp (- (1 / 2) * (a - b))) in *.
  assert (0 < / (1 + x) < 1)%R as [Hlo Hhi].
  { split; [apply Rinv_0_lt_compat; lra|].
    rewrite <-Rinv_1 at 2. apply Rinv_lt_contravar; lra. }
  split; [split; [lra|done]|]. intros _. lra.
Qed.

(** C5. For every cutoff greater than 2 and every site with [S > cutoff],
    the denominator [S - k - 1] of AICc is strictly positive for [k = 1]
    (log-series) and [k = 2] (log-normal), and the two calls of AICc in the
    fit return: once the predictor and the two likelihoods have returned,
    the site is fitted. *)
Theorem AICc_calls_defined (X : collaborators R) ifile cutoff u predicted p
    L_logser L_pln :
  let S := len (site_of u ifile) in
  let N := py_sum (np_sort (ab_of u ifile)) in
  let subab := reverse (np_sort (np_sort (ab_of u ifile))) in
  2 < cutoff →
  cutoff < S →
  0 < AICc_denominator k1 S
  ∧ 0 < AICc_denominator k2 S
  ∧ (∃ a, weestats_AICc k1 L_logser S = Ok a)
  ∧ (∃ a, weestats_AICc k2 L_pln S = Ok a)
  ∧ (get_mete_sad X S N = Ok (predicted, p) →
     length predicted = length (site_of u ifile) →
     logser_ll X subab p = Ok L_logser →
     pln_ll X (np_mean X (np_log X subab)) (np_std X (np_log X subab)) subab
       = Ok L_pln →
     ∃ results results2,
       site_results (with_weestats X) ifile cutoff u
       = Ok (Some (results, results2))).
Proof.
  intros S N subab Hcut HS.
  assert (0 < AICc_denominator k1 S) as Hd1
    by (unfold AICc_denominator, k1; lia).
  assert (0 < AICc_denominator k2 S) as Hd2
    by (unfold AICc_denominator, k2; lia).
  destruct (weestats_AICc_defined k1 L_logser S Hd1) as [a1 Ha1].
  destruct (weestats_AICc_defined k2 L_pln S Hd2) as [a2 Ha2].
  split_and!; eauto.
  intros Hmete Hlen HL1 HL2. eexists _, _.
  by apply (site_results_fit (with_weestats X) ifile cutoff u predicted p
              L_logser L_pln a1 a2 (weestats_aic_weight a1 a2 S 4)).
Qed.

Lemma AICc_calls_defined_witness :
  2 < default_cutoff
  ∧ default_cutoff < len (site_of "A" site_A)
  ∧ 0 < AICc_denominator k1 (len (site_of "A" site_A))
  ∧ 0 < AICc_denominator k2 (len (site_of "A" site_A)).
Proof.
  assert (2 < default_cutoff) as H1 by (vm_compute; done).
  assert (default_cutoff < len (site_of "A" site_A)) as H2
    by (vm_compute; done).
  split_and!; [done..| |];
    apply (AICc_calls_defined (real_collaborators site_A) site_A
             default_cutoff "A" [] 0%R 0%R 0%R H1 H2).
Defined.

(** ** The weight *)



(** ** One site end to end *)

(** C8. On an input with the single site [A] and the abundances
    [1, 1, 2, 5, 10, 20, 3, 4, 6, 11], with the default cutoff and a
    predictor and likelihoods that return, the run writes exactly one
    site-level row, for [A] with [S = 10], [N = 63] and a weight in
    [[0, 1]], and exactly ten species-level rows, whose observed column is
    [20, 11, 10, 6, 5, 4, 3, 2, 1, 1]. *)
Theorem run_test_site_A (X : collaborators R) input st ifile predicted p
    L_logser L_pln :
  let subab := [20; 11; 10; 6; 5; 4; 3; 2; 1; 1] in
  genfromtxt X input = Ok ifile →
  site <$> ifile = replicate 10 "A" →
  ab <$> ifile = [1; 1; 2; 5; 10; 20; 3; 4; 6; 11] →
  get_mete_sad X 10 63 = Ok (predicted, p) →
  length predicted = 10%nat →
  logser_ll X subab p = Ok L_logser →
  pln_ll X (np_mean X (np_log X subab)) (np_std X (np_log X subab)) subab
    = Ok L_pln →
  ∃ results weight,
    run_test (with_weestats X) input default_cutoff st =
      (Ok (), appended st results
                [ {| dist_site := "A"; dist_S := 10; dist_N := 63;
                     dist_p := p; dist_weight := weight |} ])
    ∧ (0 <= weight <= 1)%R
    ∧ length results = 10%nat
    ∧ sad_site <$> results = replicate 10 "A"
    ∧ obs <$> results = subab
    ∧ pred <$> results = predicted.
Proof.
  intros subab Hin Hsite Hab Hmete Hlen HL1 HL2.
  assert (filter (λ r, site r = "A") ifile = ifile) as Hfilter.
  { apply (filter_key_all site), (Forall_fmap site (λ v, v = "A")).
    rewrite Hsite. by apply Forall_replicate. }
  assert (site_of "A" ifile = replicate 10 "A") as Hsite_of.
  { unfold site_of. by rewrite Hfilter. }
  assert (ab_of "A" ifile = [1; 1; 2; 5; 10; 20; 3; 4; 6; 11]) as Hab_of.
  { unfold ab_of. by rewrite Hfilter. }
  assert (usites ifile = ["A"]) as Hus.
  { unfold usites. by rewrite Hsite. }
  assert (len (site_of "A" ifile) = 10) as HS by by rewrite Hsite_of.
  assert (py_sum (np_sort (ab_of "A" ifile)) = 63) as HN by by rewrite Hab_of.
  assert (reverse (np_sort (np_sort (ab_of "A" ifile))) = subab) as Hsub
    by by rewrite Hab_of.
  destruct (weestats_AICc_defined k1 L_logser 10) as [a1 Ha1]; [done|].
  destruct (weestats_AICc_defined k2 L_pln 10) as [a2 Ha2]; [done|].
  destruct (weestats_aic_weight_range a1 a2 10 4) as [_ Hrange].
  pose proof (site_results_fit (with_weestats X) ifile default_cutoff "A"
                predicted p L_logser L_pln a1 a2
                (weestats_aic_weight a1 a2 10 4)) as Hfit.
  cbv zeta in Hfit. rewrite HS, HN, Hsub, Hsite_of in Hfit.
  eexists _, _. split.
  { unfold run_test. simpl. rewrite Hin, Hus. simpl.
    unfold run_test_site. rewrite Hfit; done. }
  split; [apply Hrange; lia|].
  destruct (stack_rows_columns (replicate 10 "A") subab predicted)
    as (H1 & H2 & H3); [done|by rewrite Hlen|].
  split_and!; [|done..].
  rewrite stack_rows_length; [done|done|by rewrite Hlen].
Qed.

Lemma run_test_site_A_witness :
  let X := real_collaborators site_A in
  let subab := [20; 11; 10; 6; 5; 4; 3; 2; 1; 1] in
  genfromtxt X "sads.csv" = Ok site_A
  ∧ site <$> site_A = replicate 10 "A"
  ∧ ab <$> site_A = [1; 1; 2; 5; 10; 20; 3; 4; 6; 11]
  ∧ get_mete_sad X 10 63 = Ok (replicate 10 1, (/ 2)%R)
  ∧ ∃ results weight,
      run_test (with_weestats X) "sads.csv" default_cutoff no_rows =
        (Ok (), appended no_rows results
                  [ {| dist_site := "A"; dist_S := 10; dist_N := 63;
                       dist_p := (/ 2)%R; dist_weight := weight |} ])
      ∧ (0 <= weight <= 1)%R
      ∧ length results = 10%nat
      ∧ sad_site <$> results = replicate 10 "A"
      ∧ obs <$> results = subab
      ∧ pred <$> results = replicate 10 1.
Proof.
  intros X subab.
  assert (genfromtxt X "sads.csv" = Ok site_A) as H1 by reflexivity.
  assert (site <$> site_A = replicate 10 "A") as H2 by reflexivity.
  assert (ab <$> site_A = [1; 1; 2; 5; 10; 20; 3; 4; 6; 11]) as H3
    by reflexivity.
  assert (get_mete_sad X 10 63 = Ok (replicate 10 1, (/ 2)%R)) as H4
    by reflexivity.
  assert (length (replicate 10 1) = 10%nat) as H5 by reflexivity.
  assert (logser_ll X subab (/ 2)%R = Ok (-20)%R) as H6 by reflexivity.
  assert (pln_ll X (np_mean X (np_log X subab)) (np_std X (np_log X subab))
            subab = Ok (-21)%R) as H7 by reflexivity.
  split_and!; [done..|].
  exact (run_test_site_A X "sads.csv" no_rows site_A (replicate 10 1)
           (/ 2)%R (-20)%R (-21)%R H1 H2 H3 H4 H5 H6 H7).
Defined.

(** ** The loader *)

(** [run_test] reads the input before it opens an output file: when the
    loader raises, the run ends with that exception and both files are as
    they were. *)
Lemma run_test_loader_failure {F} (X : collaborators F) input cutoff st e :
  genfromtxt X input = Raise e → run_test X input cutoff st = (Raise e, st).
Proof. intros Hin. unfold run_test. by rewrite Hin. Qed.

(** ** Abundance classes *)

Section abundance_classes.
Variable genfromtxt_sad : string → result (list sad_row).
Variable list_set : list string → list string.
Hypothesis list_set_distinct : ∀ x, list_set x ≡ₚ remove_dups x.

Lemma list_set_nonempty x : x ≠ [] → list_set x ≠ [].
Proof.
  intros Hx Hnil. destruct x as [|a x]; [done|].
  assert (a ∈ list_set (a :: x)) as Ha.
  { rewrite list_set_distinct, elem_of_remove_dups. left. }
  rewrite Hnil in Ha. by apply elem_of_nil in Ha.
Qed.

(** C10. For every class name other than ['singleton'], ['doubleton'],
    ['dominant'] and ['rare'], [rare_sp_count] on a table with at least
    one row ends at the first site with an [UnboundLocalError]: no branch
    has assigned the locals that are appended. *)
Theorem rare_sp_count_unknown_class input abundance_class ifile :
  abundance_class ∉ ["singleton"; "doubleton"; "dominant"; "rare"] →
  genfromtxt_sad input = Ok ifile →
  ifile ≠ [] →
  rare_sp_count genfromtxt_sad list_set input abundance_class
  = Raise UnboundLocalError.
Proof.
  intros Hclass Hin Hrows. unfold rare_sp_count. rewrite Hin. simpl.
  assert (sad_site <$> ifile ≠ []) as Hsites by by destruct ifile.
  apply list_set_nonempty in Hsites.
  destruct (list_set (sad_site <$> ifile)) as [|u us]; [done|].
  apply not_elem_of_cons in Hclass as (H1 & Hclass).
  apply not_elem_of_cons in Hclass as (H2 & Hclass).
  apply not_elem_of_cons in Hclass as (H3 & Hclass).
  apply not_elem_of_cons in Hclass as (H4 & _).
  simpl. unfold assign_class. by rewrite !decide_False.
Qed.

End abundance_classes.

Lemma rare_sp_count_unknown_class_witness :
  let table := stack_rows (replicate 4 "A") [15; 1; 2; 4] [20; 1; 1; 3] in
  ("common" ∉ ["singleton"; "doubleton"; "dominant"; "rare"])
  ∧ table ≠ []
  ∧ rare_sp_count (λ _, Ok table) remove_dups "sads_obs_pred.csv" "common"
    = Raise UnboundLocalError.
Proof.
  intros table.
  assert (∀ x : list string, remove_dups x ≡ₚ remove_dups x) as H1 by done.
  assert ("common" ∉ ["singleton"; "doubleton"; "dominant"; "rare"]) as H2.
  { intros H. repeat (apply elem_of_cons in H as [H|H]; [discriminate|]).
    by apply elem_of_nil in H. }
  assert (table ≠ []) as H3 by discriminate.
  split_and!; [done..|].
  exact (rare_sp_count_unknown_class (λ _, Ok table) remove_dups H1
           "sads_obs_pred.csv" "common" table H2 eq_refl H3).
Defined.

(** Without a site there is no iteration, and the same call returns two
    empty lists. *)
Lemma rare_sp_count_no_rows genfromtxt_sad list_set input abundance_class :
  (∀ x, list_set x ≡ₚ remove_dups x) →
  genfromtxt_sad input = Ok [] →
  rare_sp_count genfromtxt_sad list_set input abundance_class = Ok ([], []).
Proof.
  intros Hset Hin. unfold rare_sp_count. rewrite Hin. simpl.
  pose proof (Hset []) as Hnil. apply Permutation_nil_r in Hnil.
  by rewrite Hnil.
Qed.


(** * Further properties of [run_test] *)

(** ** Rows already in the files *)

Section frame.
Context {F : Type} (X : collaborators F).
Implicit Types (ifile : list AbundanceRecord) (cutoff : Z) (u : string).
Implicit Types (st : outputs F) (us : list string).

Lemma appended_no_rows new1 new2 :
  appended (F:=F) no_rows new1 new2 = {| f1 := new1; f2 := new2 |}.
Proof. done. Qed.

Lemma run_test_loop_frame ifile cutoff us : ∀ st,
  run_test_loop X ifile cutoff us st =
    ((run_test_loop X ifile cutoff us no_rows).1,
     appended st (f1 (run_test_loop X ifile cutoff us no_rows).2)
                 (f2 (run_test_loop X ifile cutoff us no_rows).2)).
Proof.
  induction us as [|u us IH]; intros st.
  - simpl. by rewrite appended_nil.
  - simpl. rewrite !run_test_site_rows.
    destruct (site_results X ifile cutoff u) as [o|e]; simpl.
    + rewrite (IH (appended st _ _)), (IH (appended no_rows _ _)).
      simpl. by rewrite appended_appended.
    + by rewrite appended_nil.
Qed.

End frame.

(** X1. A run never touches the rows that the output files already hold:
    its outcome and the rows it writes are those of a run on empty files,
    appended to what was there.  Running it a second time appends the same
    rows once more. *)
Theorem run_test_appends_same_rows {F} (X : collaborators F) input cutoff st :
  let fresh := run_test X input cutoff no_rows in
  run_test X input cutoff st
    = (fresh.1, appended st (f1 fresh.2) (f2 fresh.2))
  ∧ run_test X input cutoff (run_test X input cutoff st).2
    = (fresh.1, appended st (f1 fresh.2 ++ f1 fresh.2)
                            (f2 fresh.2 ++ f2 fresh.2)).
Proof.
  assert (∀ st', run_test X input cutoff st'
    = ((run_test X input cutoff no_rows).1,
       appended st' (f1 (run_test X input cutoff no_rows).2)
                    (f2 (run_test X input cutoff no_rows).2))) as Hframe.
  { intros st'. unfold run_test.
    destruct (genfromtxt X input) as [ifile|e]; simpl.
    - apply run_test_loop_frame.
    - by rewrite appended_nil. }
  simpl. split; [apply Hframe|].
  rewrite (Hframe (run_test X input cutoff st).2), (Hframe st). simpl.
  by rewrite appended_appended.
Qed.

(** ** The rows of a run *)

Lemma StronglySorted_sublist {A} (R : relation A) l : ∀ k,
  StronglySorted R l → k `sublist_of` l → StronglySorted R k.
Proof.
  induction l as [|x l IH]; intros k Hl Hk.
  - apply sublist_nil_r in Hk as ->. constructor.
  - apply StronglySorted_inv in Hl as [Hl Hx].
    apply sublist_cons_r in Hk as [Hk|(k' & -> & Hk)]; [by apply IH|].
    constructor; [by apply IH|].
    apply Forall_forall. intros y Hy.
    eapply Forall_forall; [exact Hx|]. by eapply elem_of_sublist.
Qed.

Lemma replicate_all {A} (u : A) l :
  Forall (λ v, v = u) l → l = replicate (length l) u.
Proof. induction 1 as [|v l -> _ IH]; simpl; [done|]. by rewrite <-IH. Qed.

Lemma wrap64_add_l a b : wrap64 (wrap64 a + b) = wrap64 (a + b).
Proof.
  unfold wrap64. f_equal.
  replace ((a + 2 ^ 63) mod 2 ^ 64 - 2 ^ 63 + b + 2 ^ 63)
    with ((a + 2 ^ 63) mod 2 ^ 64 + b) by lia.
  rewrite Zplus_mod_idemp_l. f_equal. lia.
Qed.

Lemma wrap64_int64 z : int64 z → wrap64 z = z.
Proof.
  unfold int64, wrap64. intros Hz. rewrite Z.mod_small; lia.
Qed.

Lemma py_sum_total x : py_sum x = wrap64 (total x).
Proof.
  unfold py_sum.
  assert (∀ acc, fold_left (λ acc a, wrap64 (acc + a)) x (wrap64 acc)
                 = wrap64 (acc + total x)) as Hfold.
  { induction x as [|a x IH]; intros acc; simpl.
    - by rewrite Z.add_0_r.
    - rewrite wrap64_add_l, IH. f_equal. lia. }
  apply (Hfold 0).
Qed.

Lemma total_Permutation x y : x ≡ₚ y → total x = total y.
Proof. induction 1; simpl; lia. Qed.

Lemma site_of_nonempty u ifile : u ∈ site <$> ifile → 0 < len (site_of u ifile).
Proof.
  intros (r & -> & Hr)%list_elem_of_fmap.
  assert (site r ∈ site_of (site r) ifile) as Hin.
  { unfold site_of. apply list_elem_of_fmap. exists r. split; [done|].
    by apply list_elem_of_filter. }
  unfold len. destruct (site_of (site r) ifile); [by apply elem_of_nil in Hin|].
  simpl. lia.
Qed.

Section written.
Context {F : Type} (X : collaborators F).
Implicit Types (ifile : list AbundanceRecord) (cutoff : Z) (u : string).
Implicit Types (st : outputs F) (us : list string).

(** What a run writes: the rows of the sites up to the one where it ends. *)
Lemma run_test_written input cutoff st ifile :
  genfromtxt X input = Ok ifile →
  ∃ done rest,
    usites ifile = done ++ rest
    ∧ written1 st (run_test X input cutoff st).2
      = done ≫= site_rows1 X ifile cutoff
    ∧ written2 st (run_test X input cutoff st).2
      = done ≫= site_rows2 X ifile cutoff.
Proof.
  intros Hin. unfold run_test. rewrite Hin.
  destruct (run_test_loop_done X ifile cutoff (usites ifile) st)
    as (done & rest & Hus & -> & _).
  exists done, rest.
  by destruct (written_appended st (done ≫= site_rows1 X ifile cutoff)
                 (done ≫= site_rows2 X ifile cutoff)) as [-> ->].
Qed.

Lemma run_test_written_failure input cutoff st e :
  genfromtxt X input = Raise e →
  written1 st (run_test X input cutoff st).2 = []
  ∧ written2 st (run_test X input cutoff st).2 = [].
Proof.
  intros Hin. rewrite (run_test_loader_failure X input cutoff st e Hin).
  unfold written1, written2. simpl. by rewrite !drop_all.
Qed.

Lemma site_rows2_row ifile cutoff v row :
  row ∈ site_rows2 X ifile cutoff v →
  ∃ results, site_results X ifile cutoff v = Ok (Some (results, row)).
Proof.
  unfold site_rows2.
  destruct (site_results X ifile cutoff v) as [[[results results2]|]|];
    try by intros ?%elem_of_nil.
  intros ->%list_elem_of_singleton. eauto.
Qed.

Lemma site_rows_blocks ifile cutoff v :
  sad_site <$> site_rows1 X ifile cutoff v
  = site_rows2 X ifile cutoff v
      ≫= λ row, replicate (Z.to_nat (dist_S row)) (dist_site row).
Proof.
  unfold site_rows1, site_rows2.
  destruct (site_results X ifile cutoff v) as [[[results results2]|]|] eqn:Hfit;
    [|done..].
  apply site_results_rows in Hfit as (Hlen & Hsite & _ & Hu & HS).
  simpl. rewrite app_nil_r, Hu, HS. unfold len. rewrite Nat2Z.id, <-Hlen.
  rewrite <-(length_fmap sad_site). apply replicate_all.
  by apply (Forall_fmap sad_site (λ v', v' = v)).
Qed.

Lemma site_rows2_sublist ifile cutoff us :
  dist_site <$> (us ≫= site_rows2 X ifile cutoff) `sublist_of` us.
Proof.
  induction us as [|v us IH]; [done|].
  rewrite bind_cons, fmap_app.
  pose proof (site_rows2_site X ifile cutoff v) as Hv.
  unfold site_rows2 in *.
  destruct (site_results X ifile cutoff v) as [[[results results2]|]|];
    simpl; try by apply sublist_cons.
  apply Forall_singleton in Hv as ->. by apply sublist_skip.
Qed.

End written.

Lemma usites_StronglySorted ifile : StronglySorted String.le (usites ifile).
Proof.
  apply Sorted_StronglySorted; [apply _|].
  apply (Sorted_merge_sort String.le).
Qed.

(** X2. Whatever the outcome of a run, the rows it writes are laid out by
    site: the site-level rows are in strictly ascending order of their site
    names, and the site column of the species-level rows is, for each
    site-level row [(u, S, ...)] in turn, a block of [S] rows for [u]. *)
Theorem run_test_rows_by_site {F} (X : collaborators F) input cutoff st :
  let w1 := written1 st (run_test X input cutoff st).2 in
  let w2 := written2 st (run_test X input cutoff st).2 in
  sad_site <$> w1
    = w2 ≫= (λ row, replicate (Z.to_nat (dist_S row)) (dist_site row))
  ∧ StronglySorted String.le (dist_site <$> w2)
  ∧ NoDup (dist_site <$> w2).
Proof.
  simpl. destruct (genfromtxt X input) as [ifile|e] eqn:Hin.
  2:{ destruct (run_test_written_failure X input cutoff st e Hin) as [-> ->].
      split_and!; constructor. }
  destruct (run_test_written X input cutoff st ifile Hin)
    as (done & rest & Hus & -> & ->).
  assert (done `sublist_of` usites ifile) as Hdone.
  { rewrite Hus. by apply sublist_inserts_r. }
  pose proof (site_rows2_sublist X ifile cutoff done) as Hsub.
  split_and!.
  - clear. induction done as [|v done IH]; [done|].
    by rewrite !bind_cons, fmap_app, bind_app, IH, site_rows_blocks.
  - eapply StronglySorted_sublist; [apply (usites_StronglySorted ifile)|].
    by etrans.
  - apply (sublist_NoDup _ (usites ifile)); [apply NoDup_usites|].
    by trans done.
Qed.

(** X3. Every site-level row that a run writes is for a site of the input,
    and its [S] is the number of input records of that site: positive, and
    above the cutoff. *)
Theorem run_test_row_richness {F} (X : collaborators F) input cutoff st row :
  row ∈ written2 st (run_test X input cutoff st).2 →
  ∃ ifile,
    genfromtxt X input = Ok ifile
    ∧ dist_site row ∈ site <$> ifile
    ∧ dist_S row = len (site_of (dist_site row) ifile)
    ∧ 0 < dist_S row
    ∧ cutoff < dist_S row.
Proof.
  destruct (genfromtxt X input) as [ifile|e] eqn:Hin.
  2:{ destruct (run_test_written_failure X input cutoff st e Hin) as [_ ->].
      by intros ?%elem_of_nil. }
  destruct (run_test_written X input cutoff st ifile Hin)
    as (done & rest & Hus & _ & ->).
  intros (v & Hrow & Hv)%list_elem_of_bind.
  apply site_rows2_row in Hrow as [results Hfit].
  pose proof (site_results_rows X _ _ _ _ _ Hfit) as (_ & _ & _ & Hsite & HS).
  apply site_results_Some in Hfit as [Hcut _].
  assert (v ∈ site <$> ifile) as Hsites.
  { apply elem_of_usites. rewrite Hus. apply elem_of_app. by left. }
  exists ifile. rewrite Hsite, HS.
  split_and!; [done..| |done]. by apply site_of_nonempty.
Qed.

Lemma run_test_row_richness_witness :
  ∃ row,
    row ∈ written2 no_rows
            (run_test (flat_collaborators three_sites) "sads.csv" 1 no_rows).2
    ∧ ∃ ifile,
        genfromtxt (flat_collaborators three_sites) "sads.csv" = Ok ifile
        ∧ dist_site row ∈ site <$> ifile
        ∧ dist_S row = len (site_of (dist_site row) ifile)
        ∧ 0 < dist_S row
        ∧ 1 < dist_S row.
Proof.
  eexists. split; [left|].
  apply (run_test_row_richness (flat_collaborators three_sites) "sads.csv" 1
           no_rows). left.
Defined.

(** X4. The [N] of every site-level row is the exact total of the site's
    input abundances reduced to [np.int64] by wrap-around; it is that total
    itself whenever the total is in the range of [np.int64]. *)
Theorem run_test_row_total {F} (X : collaborators F) input cutoff st ifile row :
  genfromtxt X input = Ok ifile →
  row ∈ written2 st (run_test X input cutoff st).2 →
  dist_N row = wrap64 (total (ab_of (dist_site row) ifile))
  ∧ (int64 (total (ab_of (dist_site row) ifile)) →
     dist_N row = total (ab_of (dist_site row) ifile)).
Proof.
  intros Hin.
  destruct (run_test_written X input cutoff st ifile Hin)
    as (done & rest & Hus & _ & ->).
  intros (v & Hrow & Hv)%list_elem_of_bind.
  apply site_rows2_row in Hrow as [results Hfit].
  apply site_results_Some in Hfit
    as (_ & ? & ? & ? & ? & ? & ? & ? & _ & _ & _ & _ & _ & _ & _ & _ & ->).
  simpl.
  rewrite py_sum_total, (total_Permutation _ _ (np_sort_Permutation _)).
  split; [done|]. apply wrap64_int64.
Qed.

Lemma run_test_row_total_witness :
  ∃ row,
    genfromtxt (flat_collaborators three_sites) "sads.csv" = Ok three_sites
    ∧ row ∈ written2 no_rows
              (run_test (flat_collaborators three_sites) "sads.csv" 1
                 no_rows).2
    ∧ dist_N row = wrap64 (total (ab_of (dist_site row) three_sites))
    ∧ (int64 (total (ab_of (dist_site row) three_sites)) →
       dist_N row = total (ab_of (dist_site row) three_sites)).
Proof.
  eexists. split; [reflexivity|]. split; [left|].
  apply (run_test_row_total (flat_collaborators three_sites) "sads.csv" 1
           no_rows three_sites); [reflexivity|left].
Defined.


(** ** A predictor that breaks its contract *)



(** ** The order of the input rows *)

Lemma np_sort_Permutation_eq x y : x ≡ₚ y → np_sort x = np_sort y.
Proof.
  intros Hxy. apply (Sorted_unique Z.le); try apply np_sort_Sorted.
  by rewrite !np_sort_Permutation.
Qed.

Lemma ab_of_site_ab u ifile :
  ab_of u ifile = snd <$> filter (λ p, p.1 = u) (site_ab ifile).
Proof.
  unfold ab_of, site_ab. induction ifile as [|r ifile IH]; [done|].
  rewrite fmap_cons, (filter_cons _ r), (filter_cons _ (site r, ab r)).
  simpl. destruct (decide (site r = u)); [|exact IH].
  rewrite !fmap_cons. f_equal. exact IH.
Qed.

Lemma site_of_replicate u ifile :
  site_of u ifile = replicate (length (ab_of u ifile)) u.
Proof.
  rewrite site_of_ab_of_length. apply replicate_all, site_of_all.
Qed.

Section input_order.
Context {F : Type} (X : collaborators F).
Context (ifile ifile' : list AbundanceRecord).
Hypothesis same_records : site_ab ifile ≡ₚ site_ab ifile'.

Lemma ab_of_Permutation u : ab_of u ifile ≡ₚ ab_of u ifile'.
Proof. rewrite !ab_of_site_ab. by rewrite same_records. Qed.

Lemma site_of_Permutation u : site_of u ifile = site_of u ifile'.
Proof. by rewrite !site_of_replicate, (ab_of_Permutation u). Qed.

Lemma usites_Permutation : usites ifile = usites ifile'.
Proof.
  unfold usites. symmetry. apply np_sort_bytes_set_order.
  assert (site <$> ifile ≡ₚ site <$> ifile') as Hsites.
  { assert (∀ l, site <$> l = fst <$> site_ab l) as Hfst.
    { intros l. unfold site_ab. by rewrite <-list_fmap_compose. }
    by rewrite !Hfst, same_records. }
  unfold distinct. apply NoDup_Permutation; try apply NoDup_remove_dups.
  intros v. by rewrite !elem_of_remove_dups, Hsites.
Qed.

Lemma site_results_Permutation cutoff u :
  site_results X ifile cutoff u = site_results X ifile' cutoff u.
Proof.
  unfold site_results.
  by rewrite (site_of_Permutation u),
    (np_sort_Permutation_eq _ _ (ab_of_Permutation u)).
Qed.

Lemma run_test_loop_Permutation cutoff us : ∀ st,
  run_test_loop X ifile cutoff us st = run_test_loop X ifile' cutoff us st.
Proof.
  induction us as [|u us IH]; intros st; [done|].
  simpl. unfold run_test_site. rewrite site_results_Permutation.
  destruct (site_results X ifile' cutoff u); [apply IH|done].
Qed.

End input_order.

(** X6. [run_test] reads only the site and the abundance of its input
    records, as a multiset: two tables whose (site, abundance) pairs are the
    same up to order, whatever their years and species names, give the same
    sites, the same fit of every site and the same rows. *)
Theorem run_test_input_order {F} (X : collaborators F) ifile ifile' cutoff st :
  site_ab ifile ≡ₚ site_ab ifile' →
  usites ifile = usites ifile'
  ∧ (∀ u, site_results X ifile cutoff u = site_results X ifile' cutoff u)
  ∧ run_test_loop X ifile cutoff (usites ifile) st
    = run_test_loop X ifile' cutoff (usites ifile') st.
Proof.
  intros Hsame. split_and!.
  - by apply usites_Permutation.
  - intros u. by apply site_results_Permutation.
  - rewrite <-(usites_Permutation ifile ifile' Hsame).
    by apply run_test_loop_Permutation.
Qed.

Lemma run_test_input_order_witness :
  let X := flat_collaborators three_sites in
  site_ab three_sites ≡ₚ site_ab three_sites_again
  ∧ run_test_loop X three_sites 0 (usites three_sites) no_rows
    = run_test_loop X three_sites_again 0 (usites three_sites_again) no_rows.
Proof.
  intros X.
  assert (site_ab three_sites ≡ₚ site_ab three_sites_again) as H1.
  { change (site_ab three_sites_again) with (reverse (site_ab three_sites)).
    by rewrite reverse_Permutation. }
  split; [done|].
  apply (run_test_input_order X three_sites three_sites_again 0 no_rows H1).
Defined.


(** * Further properties of [rare_sp_count] *)

Lemma maximum_spec a x :
  maximum (a :: x) ∈ a :: x ∧ Forall (λ v, v ≤ maximum (a :: x)) (a :: x).
Proof.
  simpl. revert a. induction x as [|b x IH]; intros a; simpl.
  - split; [left|]. repeat constructor. lia.
  - destruct (IH (Z.max a b)) as [Hin Hle]. split.
    + apply elem_of_cons in Hin as [->|Hin]; [|by do 2 right].
      destruct (Z.max_spec a b) as [[_ ->]|[_ ->]]; [right|]; left.
    + apply Forall_cons in Hle as [Hmax Hle].
      repeat constructor; [lia..|done].
Qed.

Lemma maximum_Permutation x y : x ≡ₚ y → maximum x = maximum y.
Proof.
  intros Hxy. destruct x as [|a x], y as [|b y]; [done| | |].
  - by apply Permutation_nil_cons in Hxy.
  - symmetry in Hxy. by apply Permutation_nil_cons in Hxy.
  - destruct (maximum_spec a x) as [Hx Hxle], (maximum_spec b y) as [Hy Hyle].
    set (m := maximum (a :: x)) in *. set (n := maximum (b :: y)) in *.
    rewrite Forall_forall in Hxle, Hyle.
    assert (n ≤ m) by (apply Hxle; by rewrite Hxy).
    assert (m ≤ n) by (apply Hyle; by rewrite <-Hxy).
    lia.
Qed.

Lemma class_value_Permutation abundance_class x y :
  x ≡ₚ y → class_value abundance_class x = class_value abundance_class y.
Proof.
  intros Hxy. unfold class_value, count_eq, count_le, len.
  repeat case_decide; try by rewrite Hxy.
  by apply maximum_Permutation.
Qed.

Lemma group_nonempty u (ifile : list sad_row) :
  u ∈ sad_site <$> ifile → pred_of u ifile ≠ [] ∧ obs_of u ifile ≠ [].
Proof.
  intros (r & -> & Hr)%list_elem_of_fmap.
  assert (r ∈ filter (λ r', sad_site r' = sad_site r) ifile) as Hin
    by by apply list_elem_of_filter.
  unfold pred_of, obs_of.
  destruct (filter _ ifile); [by apply elem_of_nil in Hin|done].
Qed.

Lemma assign_class_value abundance_class x y locals :
  abundance_class ∈ abundance_classes → x ≠ [] → y ≠ [] →
  assign_class abundance_class x y locals
  = Ok (Some (class_value abundance_class x),
        Some (class_value abundance_class y)).
Proof.
  intros Hclass Hx Hy. unfold abundance_classes in Hclass.
  repeat (apply elem_of_cons in Hclass as [->|Hclass]); try done.
  - destruct x, y; done.
  - by apply elem_of_nil in Hclass.
Qed.

Lemma rare_sp_count_loop_values ifile abundance_class us :
  abundance_class ∈ abundance_classes →
  (∀ u, u ∈ us → u ∈ sad_site <$> ifile) →
  ∀ locals pred_class obs_class,
    rare_sp_count_loop ifile abundance_class us locals pred_class obs_class
    = Ok (pred_class
          ++ ((λ u, class_value abundance_class (pred_of u ifile)) <$> us),
          obs_class
          ++ ((λ u, class_value abundance_class (obs_of u ifile)) <$> us)).
Proof.
  intros Hclass. induction us as [|u us IH]; intros Hus locals pc oc.
  - simpl. by rewrite !app_nil_r.
  - destruct (group_nonempty u ifile) as [Hp Ho]; [apply Hus; left|].
    cbn [rare_sp_count_loop].
    rewrite (assign_class_value _ _ _ _ Hclass Hp Ho). simpl.
    rewrite IH by (intros; apply Hus; by right).
    by rewrite <-!app_assoc.
Qed.

Section rare_sp_count_classes.
Variable genfromtxt_sad : string → result (list sad_row).
Variable list_set : list string → list string.
Hypothesis list_set_distinct : ∀ x, list_set x ≡ₚ remove_dups x.

(** For the four documented classes the loop of [rare_sp_count] is a map
    over the sites. *)
Lemma rare_sp_count_map input abundance_class ifile :
  abundance_class ∈ abundance_classes →
  genfromtxt_sad input = Ok ifile →
  rare_sp_count genfromtxt_sad list_set input abundance_class
  = Ok ((λ u, class_value abundance_class (pred_of u ifile))
          <$> list_set (sad_site <$> ifile),
        (λ u, class_value abundance_class (obs_of u ifile))
          <$> list_set (sad_site <$> ifile)).
Proof.
  intros Hclass Hin. unfold rare_sp_count. rewrite Hin. simpl.
  rewrite rare_sp_count_loop_values; [done..|].
  intros u Hu. by rewrite list_set_distinct, elem_of_remove_dups in Hu.
Qed.

(** X7. For each of the four documented classes [rare_sp_count] returns
    normally, with one predicted and one observed value per distinct site,
    in the order in which the set of sites is listed: the value of the
    class on the rows of that site.  No site is without rows, so the
    maximum taken for ['dominant'] is always defined. *)
Theorem rare_sp_count_values input abundance_class ifile :
  abundance_class ∈ abundance_classes →
  genfromtxt_sad input = Ok ifile →
  let sites := list_set (sad_site <$> ifile) in
  rare_sp_count genfromtxt_sad list_set input abundance_class
  = Ok ((λ u, class_value abundance_class (pred_of u ifile)) <$> sites,
        (λ u, class_value abundance_class (obs_of u ifile)) <$> sites)
  ∧ length sites = length (remove_dups (sad_site <$> ifile)).
Proof.
  intros Hclass Hin sites. split; [|unfold sites; by rewrite list_set_distinct].
  by apply rare_sp_count_map.
Qed.

(** X8. At every site the counts are consistent across the classes: the
    singleton and the doubleton counts are not negative, and the rare count
    (abundance at most 10) is at least their sum. *)
Theorem rare_sp_count_rare_bound input ifile ps os pd od pr or i s d r :
  genfromtxt_sad input = Ok ifile →
  rare_sp_count genfromtxt_sad list_set input "singleton" = Ok (ps, os) →
  rare_sp_count genfromtxt_sad list_set input "doubleton" = Ok (pd, od) →
  rare_sp_count genfromtxt_sad list_set input "rare" = Ok (pr, or) →
  (ps !! i = Some s ∧ pd !! i = Some d ∧ pr !! i = Some r)
  ∨ (os !! i = Some s ∧ od !! i = Some d ∧ or !! i = Some r) →
  0 ≤ s ∧ 0 ≤ d ∧ s + d ≤ r.
Proof.
  intros Hin Hs Hd Hr.
  rewrite (rare_sp_count_map input "singleton" ifile
             ltac:(by left) Hin) in Hs.
  rewrite (rare_sp_count_map input "doubleton" ifile
             ltac:(by right; left) Hin) in Hd.
  rewrite (rare_sp_count_map input "rare" ifile
             ltac:(by do 2 right; left) Hin) in Hr.
  simplify_eq.
  assert (∀ x, 0 ≤ count_eq 1 x ∧ 0 ≤ count_eq 2 x
               ∧ count_eq 1 x + count_eq 2 x ≤ count_le 10 x) as Hcount.
  { intros x. unfold count_eq, count_le, len.
    induction x as [|a x IH]; [done|]. rewrite !filter_cons.
    repeat case_decide; simpl; lia. }
  rewrite !list_lookup_fmap.
  destruct (list_set (sad_site <$> ifile) !! i) as [u|]; simpl;
    [|by intros [(? & _)|(? & _)]].
  intros [(? & ? & ?)|(? & ? & ?)]; simplify_eq; apply Hcount.
Qed.

(** X9. For the class ['dominant'] the value returned for a site is the
    largest abundance of that site: it is one of the site's values, and none
    of them exceeds it. *)
Theorem rare_sp_count_dominant input ifile pred_class obs_class i u p o :
  genfromtxt_sad input = Ok ifile →
  rare_sp_count genfromtxt_sad list_set input "dominant"
    = Ok (pred_class, obs_class) →
  list_set (sad_site <$> ifile) !! i = Some u →
  pred_class !! i = Some p →
  obs_class !! i = Some o →
  (p ∈ pred_of u ifile ∧ Forall (λ v, v ≤ p) (pred_of u ifile))
  ∧ (o ∈ obs_of u ifile ∧ Forall (λ v, v ≤ o) (obs_of u ifile)).
Proof.
  intros Hin Hd Hu Hp Ho.
  rewrite (rare_sp_count_map input "dominant" ifile
             ltac:(by do 3 right; left) Hin) in Hd.
  simplify_eq. rewrite list_lookup_fmap, Hu in Hp, Ho. simplify_eq/=.
  destruct (group_nonempty u ifile) as [Hpred Hobs].
  { apply list_elem_of_lookup_2 in Hu.
    by rewrite list_set_distinct, elem_of_remove_dups in Hu. }
  change (class_value "dominant") with maximum.
  destruct (pred_of u ifile) as [|a x], (obs_of u ifile) as [|b y]; try done.
  split; apply maximum_spec.
Qed.

(** C9. Per site, the singleton class reports the number of entries equal
    to 1 and the dominant class the maximum abundance, for the predicted and
    for the observed column; so at a site whose predicted column holds
    [20, 1, 1, 3] and whose observed column holds [15, 1, 2, 4], in any
    order and among the rows of any other sites, the singleton counts are 2
    (predicted) and 1 (observed) and the dominant values 20 (predicted) and
    15 (observed). *)
Theorem rare_sp_count_singleton_dominant input ifile :
  genfromtxt_sad input = Ok ifile →
  ∃ ps os pd od,
    rare_sp_count genfromtxt_sad list_set input "singleton" = Ok (ps, os)
    ∧ rare_sp_count genfromtxt_sad list_set input "dominant" = Ok (pd, od)
    ∧ ∀ i u, list_set (sad_site <$> ifile) !! i = Some u →
        ps !! i = Some (len (filter (λ a, a = 1) (pred_of u ifile)))
        ∧ os !! i = Some (len (filter (λ a, a = 1) (obs_of u ifile)))
        ∧ (∃ p o, pd !! i = Some p ∧ od !! i = Some o
             ∧ p ∈ pred_of u ifile ∧ Forall (λ a, a ≤ p) (pred_of u ifile)
             ∧ o ∈ obs_of u ifile ∧ Forall (λ a, a ≤ o) (obs_of u ifile))
        ∧ (pred_of u ifile ≡ₚ [20; 1; 1; 3] →
           obs_of u ifile ≡ₚ [15; 1; 2; 4] →
           ps !! i = Some 2 ∧ os !! i = Some 1
           ∧ pd !! i = Some 20 ∧ od !! i = Some 15).
Proof.
  intros Hin. eexists _, _, _, _.
  split; [by apply rare_sp_count_map; [left|]|].
  split; [by apply rare_sp_count_map; [do 3 right; left|]|].
  intros i u Hu. rewrite !list_lookup_fmap, Hu. simpl.
  destruct (group_nonempty u ifile) as [Hpred Hobs].
  { apply list_elem_of_lookup_2 in Hu.
    by rewrite list_set_distinct, elem_of_remove_dups in Hu. }
  split_and!; [done..| |].
  - exists (maximum (pred_of u ifile)), (maximum (obs_of u ifile)).
    destruct (pred_of u ifile) as [|a x], (obs_of u ifile) as [|b y];
      try done.
    destruct (maximum_spec a x), (maximum_spec b y). by split_and!.
  - intros Hp Ho.
    rewrite (class_value_Permutation "singleton" _ _ Hp),
      (class_value_Permutation "singleton" _ _ Ho),
      (class_value_Permutation "dominant" _ _ Hp),
      (class_value_Permutation "dominant" _ _ Ho).
    done.
Qed.

End rare_sp_count_classes.

Lemma rare_sp_count_singleton_dominant_witness :
  ∃ ps os pd od,
    rare_sp_count (λ _, Ok interleaved_rows) remove_dups "sads_obs_pred.csv"
      "singleton" = Ok (ps, os)
    ∧ rare_sp_count (λ _, Ok interleaved_rows) remove_dups
        "sads_obs_pred.csv" "dominant" = Ok (pd, od)
    ∧ remove_dups (sad_site <$> interleaved_rows) !! 1%nat = Some "A"
    ∧ ps !! 1%nat = Some 2 ∧ os !! 1%nat = Some 1
    ∧ pd !! 1%nat = Some 20 ∧ od !! 1%nat = Some 15.
Proof.
  assert (∀ x : list string, remove_dups x ≡ₚ remove_dups x) as H1 by done.
  destruct (rare_sp_count_singleton_dominant (λ _, Ok interleaved_rows)
              remove_dups H1 "sads_obs_pred.csv" interleaved_rows eq_refl)
    as (ps & os & pd & od & Hs & Hd & Hsites).
  exists ps, os, pd, od. split_and!; [done..| | | |];
    apply (Hsites 1%nat "A" eq_refl); apply perm_swap.
Defined.

Lemma rare_sp_count_values_witness :
  (∀ x : list string, remove_dups x ≡ₚ remove_dups x)
  ∧ "rare" ∈ abundance_classes
  ∧ rare_sp_count (λ _, Ok two_site_rows) remove_dups "sads_obs_pred.csv"
      "rare" = Ok ([3; 3], [3; 2]).
Proof.
  assert (∀ x : list string, remove_dups x ≡ₚ remove_dups x) as H1 by done.
  assert ("rare" ∈ abundance_classes) as H2 by (do 2 right; left).
  split_and!; [done..|].
  apply (rare_sp_count_values (λ _, Ok two_site_rows) remove_dups H1
           "sads_obs_pred.csv" "rare" two_site_rows H2 eq_refl).
Defined.

Lemma rare_sp_count_rare_bound_witness :
  let count := rare_sp_count (λ _, Ok two_site_rows) remove_dups
                 "sads_obs_pred.csv" in
  count "singleton" = Ok ([2; 1], [1; 2])
  ∧ count "doubleton" = Ok ([0; 1], [1; 0])
  ∧ count "rare" = Ok ([3; 3], [3; 2])
  ∧ 0 ≤ 1 ∧ 0 ≤ 1 ∧ 1 + 1 ≤ 3.
Proof.
  assert (∀ x : list string, remove_dups x ≡ₚ remove_dups x) as H1 by done.
  intros count.
  assert (count "singleton" = Ok ([2; 1], [1; 2])) as Hs by reflexivity.
  assert (count "doubleton" = Ok ([0; 1], [1; 0])) as Hd by reflexivity.
  assert (count "rare" = Ok ([3; 3], [3; 2])) as Hr by reflexivity.
  do 3 (split; [done|]).
  apply (rare_sp_count_rare_bound (λ _, Ok two_site_rows) remove_dups H1
           "sads_obs_pred.csv" two_site_rows [2; 1] [1; 2] [0; 1] [1; 0]
           [3; 3] [3; 2] 0%nat 1 1 3 eq_refl Hs Hd Hr).
  right. by split_and!.
Defined.

Lemma rare_sp_count_dominant_witness :
  (20 ∈ pred_of "A" two_site_rows
   ∧ Forall (λ v, v ≤ 20) (pred_of "A" two_site_rows))
  ∧ (15 ∈ obs_of "A" two_site_rows
     ∧ Forall (λ v, v ≤ 15) (obs_of "A" two_site_rows)).
Proof.
  assert (∀ x : list string, remove_dups x ≡ₚ remove_dups x) as H1 by done.
  exact (rare_sp_count_dominant (λ _, Ok two_site_rows) remove_dups H1
           "sads_obs_pred.csv" two_site_rows [20; 9] [15; 12] 0%nat "A" 20 15
           eq_refl eq_refl eq_refl eq_refl eq_refl).
Defined.


(** * The reporting functions *)

(** ** The histogram of the weights *)

Section histogram.
Context `{HF : Float F} `{HO : !FloatOrder F}.

Lemma float_lt_total (x y : F) : ¬ float_le x y → float_le y x.
Proof. intros Hxy. by destruct (float_le_total x y). Qed.

(** A weight that is not negative lies in exactly one of the three bins
    if it is at most 1, and in none otherwise. *)
Lemma bins_partition (w : F) :
  float_le (float_of_int 0) w →
  (if decide (float_le (float_of_int 0) w ∧ float_lt w (float_dec 4 1))
   then 1 else 0)
  + (if decide (float_le (float_dec 4 1) w ∧ float_lt w (float_dec 6 1))
     then 1 else 0)
  + (if decide (float_le (float_dec 6 1) w ∧ float_le w (float_of_int 1))
     then 1 else 0)
  = if decide (float_le w (float_of_int 1)) then 1 else 0.
Proof.
  intros Hw0. destruct float_edges as (H04 & H46 & H61).
  destruct (decide (float_le (float_dec 4 1) w)) as [Hw4|Hw4];
  destruct (decide (float_le (float_dec 6 1) w)) as [Hw6|Hw6];
  destruct (decide (float_le w (float_of_int 1))) as [Hw1|Hw1];
  repeat match goal with
  | |- context [decide (?P ∧ ?Q)] =>
      first
        [ rewrite (decide_True (P:=P ∧ Q))
            by (split; rewrite ?float_lt_le; done)
        | rewrite (decide_False (P:=P ∧ Q))
            by (rewrite ?float_lt_le; intros [? ?]; done) ]
  end; try done.
  all: exfalso.
  all: repeat match goal with
       | Hn : ¬ float_le ?x ?y |- _ =>
           lazymatch goal with
           | _ : float_le y x |- _ => fail
           | _ => pose proof (float_lt_total x y Hn)
           end
       end.
  all: match goal with
       | Hn : ¬ float_le _ _ |- _ =>
           solve [apply Hn; eauto 6 using float_le_trans]
       end.
Qed.

Lemma np_histogram_weights (ws : list F) :
  ∃ c1 c2 c3,
    np_histogram (filter (λ w, float_le (float_of_int 0) w) ws)
      [float_of_int 0; float_dec 4 1; float_dec 6 1; float_of_int 1]
    = [c1; c2; c3]
    ∧ c1 + c2 + c3
      = len (filter (λ w, float_le (float_of_int 0) w
                          ∧ float_le w (float_of_int 1)) ws).
Proof.
  simpl. eexists _, _, _. split; [done|].
  unfold len. induction ws as [|w ws IH]; [done|].
  rewrite (filter_cons _ w ws).
  rewrite (filter_cons (λ w, _ ∧ float_le w (float_of_int 1)) w ws).
  destruct (decide (float_le (float_of_int 0) w)) as [Hw0|Hw0].
  - rewrite !(filter_cons _ w (filter _ ws)).
    pose proof (bins_partition w Hw0) as Hw.
    destruct (decide (float_le (float_of_int 0) w
                      ∧ float_lt w (float_dec 4 1)));
    destruct (decide (float_le (float_dec 4 1) w
                      ∧ float_lt w (float_dec 6 1)));
    destruct (decide (float_le (float_dec 6 1) w
                      ∧ float_le w (float_of_int 1)));
    destruct (decide (float_le w (float_of_int 1)));
    try discriminate Hw;
    first
      [ rewrite (decide_True (P:=float_le (float_of_int 0) w
                                 ∧ float_le w (float_of_int 1))) by done
      | rewrite (decide_False (P:=float_le (float_of_int 0) w
                                  ∧ float_le w (float_of_int 1)))
          by (intros [_ ?]; done) ];
    simpl length; lia.
  - rewrite decide_False by (intros [? _]; done). lia.
Qed.

End histogram.

Lemma tenths_order : @FloatOrder Z tenths.
Proof.
  split; simpl; lia.
Qed.

Lemma filter_filter_implied {A} (P Q : A → Prop)
    `{∀ x, Decision (P x)} `{∀ x, Decision (Q x)} (l : list A) :
  (∀ x, P x → Q x) → filter P (filter Q l) = filter P l.
Proof.
  intros HPQ. induction l as [|x l IH]; [done|].
  rewrite (filter_cons Q x l), (filter_cons P x l).
  destruct (decide (Q x)) as [HQ|HQ].
  - rewrite (filter_cons P x (filter Q l)).
    destruct (decide (P x)); by rewrite IH.
  - rewrite decide_False by (intros ?; by apply HQ, HPQ). done.
Qed.

(** The three counts of the histogram of the weights that are not
    negative, on the weights themselves. *)
Lemma np_histogram_bins `{HF : Float F} `{HO : !FloatOrder F} (ws : list F) :
  np_histogram (filter (λ w, float_le (float_of_int 0) w) ws)
    [float_of_int 0; float_dec 4 1; float_dec 6 1; float_of_int 1]
  = [len (filter (λ w, float_le (float_of_int 0) w
                       ∧ float_lt w (float_dec 4 1)) ws);
     len (filter (λ w, float_le (float_dec 4 1) w
                       ∧ float_lt w (float_dec 6 1)) ws);
     len (filter (λ w, float_le (float_dec 6 1) w
                       ∧ float_le w (float_of_int 1)) ws)].
Proof.
  destruct float_edges as (H04 & H46 & H61). simpl.
  rewrite !filter_filter_implied; [done|..].
  - intros w [Hw _]. apply (float_le_trans _ (float_dec 4 1)); [done|].
    by apply (float_le_trans _ (float_dec 6 1)).
  - intros w [Hw _]. by apply (float_le_trans _ (float_dec 4 1)).
  - by intros w [Hw _].
Qed.

(** X11. With [data = 'raw'], [plot_weights] draws one bar chart of three
    heights: the number of weights in [0, 0.4), in [0.4, 0.6) and in
    [0.6, 1].  They add up to the number of rows whose weight is between 0
    and 1, so a row with a negative weight, the sentinel among them, is in
    no bar. *)
Theorem plot_weights_raw `{HF : Float F} `{HO : !FloatOrder F}
    (genfromtxt_dist : string → result (list (dist_row F)))
    input left width color title ifile :
  genfromtxt_dist input = Ok ifile →
  let ws := dist_weight <$> ifile in
  let c1 := len (filter (λ w, float_le (float_of_int 0) w
                              ∧ float_lt w (float_dec 4 1)) ws) in
  let c2 := len (filter (λ w, float_le (float_dec 4 1) w
                              ∧ float_lt w (float_dec 6 1)) ws) in
  let c3 := len (filter (λ w, float_le (float_dec 6 1) w
                              ∧ float_le w (float_of_int 1)) ws) in
  plot_weights genfromtxt_dist input "raw" left width color title
  = (Ok (), [plt_subplot 111; obj_bar left (Counts [c1; c2; c3]) width color;
             obj_set_title title; obj_set_ylabel "Number of sites"])
  ∧ c1 + c2 + c3
    = len (filter (λ w, float_le (float_of_int 0) w
                        ∧ float_le w (float_of_int 1)) ws).
Proof.
  intros Hin. cbv zeta. unfold plot_weights. rewrite Hin.
  destruct (np_histogram_weights (dist_weight <$> ifile))
    as (d1 & d2 & d3 & Hd & Hsum).
  rewrite np_histogram_bins in Hd. simplify_eq.
  by rewrite np_histogram_bins.
Qed.

Lemma plot_weights_raw_witness :
  weights_loader "weights.csv" = Ok weights_rows
  ∧ plot_weights (H:=tenths) weights_loader "weights.csv" "raw" [0; 4; 8] 2
      "b" ""
    = (Ok (), [plt_subplot 111; obj_bar [0; 4; 8] (Counts [2; 2; 2]) 2 "b";
               obj_set_title ""; obj_set_ylabel "Number of sites"])
  ∧ 2 + 2 + 2
    = len (filter (λ w, 0 ≤ w ∧ w ≤ 10) (dist_weight <$> weights_rows)).
Proof.
  split; [done|].
  exact (plot_weights_raw (HF:=tenths) (HO:=tenths_order) weights_loader
           "weights.csv" [0; 4; 8] 2 "b" "" weights_rows eq_refl).
Defined.



(** ** [cross_taxa_weight_plot] *)

Section cross_taxa.
Context `{HF : Float F}.
Variable genfromtxt_dist : string → result (list (dist_row F)).

Lemma plot_weights_loaded input data left width color title ifile :
  genfromtxt_dist input = Ok ifile →
  ∃ height,
    plot_weights genfromtxt_dist input data left width color title
    = (Ok (), [plt_subplot 111; obj_bar left height width color;
               obj_set_title title; obj_set_ylabel "Number of sites"])
    ∧ (data ≠ "raw" → ∃ num den, height = Quotient num den).
Proof.
  intros Hin. unfold plot_weights. rewrite Hin. eexists. split; [done|].
  intros Hdata. rewrite decide_False by done. eauto.
Qed.

Lemma colors_lookup j :
  (j < 4)%nat → ∃ color, colors !! j = Some color ∧ drop j colors = color :: drop (S j) colors.
Proof.
  intros Hj. destruct j as [|[|[|[|j]]]]; try lia; simpl; eauto.
Qed.

(** As long as there is a colour for every file, the loop draws one bar
    chart per file, in the order of the colours. *)
Lemma cross_taxa_weight_plot_loop_Returned n files : ∀ j width,
  (j + length files ≤ 4)%nat →
  (∀ f, f ∈ files → ∃ ifile, genfromtxt_dist f = Ok ifile) →
  ∃ width' calls,
    cross_taxa_weight_plot_loop genfromtxt_dist n (Z.of_nat j) files width
    = (Returned width', calls)
    ∧ (files = [] → width' = width)
    ∧ (files ≠ [] → is_Some width')
    ∧ bar_colors calls = take (length files) (drop j colors)
    ∧ Forall (λ h, ∃ num den, h = Quotient num den) (bar_heights_of calls)
    ∧ plt_show ∉ calls.
Proof.
  induction files as [|f files IH]; intros j width Hj Hload.
  - exists width, []. simpl. split_and!; try done.
    apply not_elem_of_nil.
  - simpl in Hj. cbn [cross_taxa_weight_plot_loop].
    rewrite Nat2Z.id.
    destruct (colors_lookup j) as (color & -> & Hdrop); [lia|].
    destruct (Hload f) as [ifile Hin]; [left|].
    set (w := float_round _ _).
    set (left := [_; _; _]).
    destruct (plot_weights_loaded f "percent" left w color "" ifile Hin)
      as (height & -> & Hq).
    destruct Hq as (num & den & ->); [done|].
    replace (Z.of_nat j + 1) with (Z.of_nat (S j)) by lia.
    destruct (IH (S j) (Some w)) as (w' & calls & -> & Hnil & Hcons & Hc & Hh & Hs);
      [lia|intros; apply Hload; by right|].
    eexists _, _. split; [done|]. split_and!; try done.
    + intros _. destruct files; [rewrite Hnil by done; eauto|by apply Hcons].
    + unfold bar_colors in *. rewrite bind_app, Hc, Hdrop. done.
    + unfold bar_heights_of in *. rewrite bind_app. apply Forall_app.
      split; [|done]. repeat constructor. eauto.
    + intros [Hin'|Hin']%elem_of_app; [|done].
      repeat (apply elem_of_cons in Hin' as [Hin'|Hin']; [discriminate|]).
      by apply elem_of_nil in Hin'.
Qed.

(** The loop ends at the fifth file, which has no colour, without reading
    it. *)
Lemma cross_taxa_weight_plot_loop_IndexError n files : ∀ j width,
  (j ≤ 4)%nat →
  (4 < j + length files)%nat →
  (∀ f, f ∈ take (4 - j) files → ∃ ifile, genfromtxt_dist f = Ok ifile) →
  ∃ calls,
    cross_taxa_weight_plot_loop genfromtxt_dist n (Z.of_nat j) files width
    = (IndexError, calls)
    ∧ bar_colors calls = drop j colors
    ∧ plt_show ∉ calls.
Proof.
  induction files as [|f files IH]; intros j width Hj Hlen Hload.
  - simpl in Hlen. lia.
  - simpl in Hlen. cbn [cross_taxa_weight_plot_loop]. rewrite Nat2Z.id.
    destruct (decide (j = 4%nat)) as [->|Hj4].
    { exists []. split_and!; [done..|]. apply not_elem_of_nil. }
    destruct (colors_lookup j) as (color & -> & Hdrop); [lia|].
    destruct (Hload f) as [ifile Hin].
    { replace (4 - j)%nat with (S (3 - j)) by lia. left. }
    set (w := float_round _ _).
    set (left := [_; _; _]).
    destruct (plot_weights_loaded f "percent" left w color "" ifile Hin)
      as (height & -> & _).
    replace (Z.of_nat j + 1) with (Z.of_nat (S j)) by lia.
    destruct (IH (S j) (Some w)) as (calls & -> & Hc & Hs); [lia..| |].
    { intros f' Hf'. apply Hload.
      replace (4 - j)%nat with (S (4 - S j)) by lia. by right. }
    eexists. split; [done|]. split.
    + unfold bar_colors in *. by rewrite bind_app, Hc, Hdrop.
    + intros [Hin'|Hin']%elem_of_app; [|done].
      repeat (apply elem_of_cons in Hin' as [Hin'|Hin']; [discriminate|]).
      by apply elem_of_nil in Hin'.
Qed.

(** X13. With one to four files that load, [cross_taxa_weight_plot]
    returns after it has drawn one bar chart of percentages per file, in
    the colours ['k'], ['r'], ['g'], ['b'] in that order, and then the
    legend, which names three taxa whatever the number of files. *)
Theorem cross_taxa_weight_plot_Returned input_filenames :
  input_filenames ≠ [] →
  (length input_filenames ≤ 4)%nat →
  (∀ f, f ∈ input_filenames → ∃ ifile, genfromtxt_dist f = Ok ifile) →
  ∃ calls,
    cross_taxa_weight_plot genfromtxt_dist input_filenames
    = (Returned (), calls)
    ∧ bar_colors calls = take (length input_filenames) colors
    ∧ Forall (λ h, ∃ num den, h = Quotient num den) (bar_heights_of calls)
    ∧ plt_legend ["CBC"; "BBS"; "Gentry"] "upper left" ∈ calls
    ∧ last calls = Some plt_show.
Proof.
  intros Hne Hlen Hload. unfold cross_taxa_weight_plot.
  destruct (cross_taxa_weight_plot_loop_Returned (len input_filenames)
              input_filenames 0 None)
    as (w' & calls & Hloop & _ & Hw & Hc & Hh & _); [done..|].
  change (Z.of_nat 0) with 0 in Hloop. rewrite Hloop. destruct (Hw Hne) as [w ->].
  eexists. split; [done|]. split_and!.
  - unfold bar_colors in *. rewrite bind_app, bind_cons, bind_app, Hc.
    simpl. by rewrite !app_nil_r.
  - unfold bar_heights_of in *. rewrite bind_app, bind_cons, bind_app.
    simpl. by rewrite !app_nil_r.
  - apply elem_of_app. right. right. left.
  - by rewrite last_app.
Qed.

(** X14. With more than four files, the first four of which load,
    [cross_taxa_weight_plot] ends with an [IndexError] at the fifth: the
    four charts are drawn, the fifth file is not read, and the figure is
    never shown. *)
Theorem cross_taxa_weight_plot_IndexError input_filenames :
  (4 < length input_filenames)%nat →
  (∀ f, f ∈ take 4 input_filenames → ∃ ifile, genfromtxt_dist f = Ok ifile) →
  ∃ calls,
    cross_taxa_weight_plot genfromtxt_dist input_filenames
    = (IndexError, calls)
    ∧ bar_colors calls = colors
    ∧ plt_show ∉ calls.
Proof.
  intros Hlen Hload. unfold cross_taxa_weight_plot.
  destruct (cross_taxa_weight_plot_loop_IndexError (len input_filenames)
              input_filenames 0 None)
    as (calls & Hloop & Hc & Hs); [lia|done|done|].
  change (Z.of_nat 0) with 0 in Hloop. rewrite Hloop.
  eexists. split; [done|]. split.
  - unfold bar_colors in *. by rewrite bind_cons, Hc.
  - intros [?|?]%elem_of_cons; [discriminate|done].
Qed.

End cross_taxa.

(** X15. Without a file, [cross_taxa_weight_plot] ends with an
    [UnboundLocalError]: the local [width], which only the loop body
    assigns, is read for the ticks, after the figure was opened and the
    axis labelled. *)
Theorem cross_taxa_weight_plot_no_file `{HF : Float F}
    (genfromtxt_dist : string → result (list (dist_row F))) :
  cross_taxa_weight_plot genfromtxt_dist []
  = (Failed UnboundLocalError,
     [plt_figure 1; plt_ylabel "Percentage of sites"]).
Proof. reflexivity. Qed.

Lemma cross_taxa_weight_plot_Returned_witness :
  ["cbc.csv"; "bbs.csv"] ≠ []
  ∧ ∃ calls,
      cross_taxa_weight_plot (H:=tenths) weights_loader ["cbc.csv"; "bbs.csv"]
      = (Returned (), calls)
      ∧ bar_colors calls = take 2 colors
      ∧ Forall (λ h, ∃ num den, h = Quotient num den) (bar_heights_of calls)
      ∧ plt_legend ["CBC"; "BBS"; "Gentry"] "upper left" ∈ calls
      ∧ last calls = Some plt_show.
Proof.
  assert (["cbc.csv"; "bbs.csv"] ≠ []) as H1 by discriminate.
  split; [done|].
  apply (cross_taxa_weight_plot_Returned (HF:=tenths) weights_loader
           ["cbc.csv"; "bbs.csv"] H1).
  - simpl. lia.
  - intros f _. by exists weights_rows.
Defined.

Lemma cross_taxa_weight_plot_IndexError_witness :
  ∃ calls,
    cross_taxa_weight_plot (H:=tenths) weights_loader
      ["a.csv"; "b.csv"; "c.csv"; "d.csv"; "e.csv"]
    = (IndexError, calls)
    ∧ bar_colors calls = colors
    ∧ plt_show ∉ calls.
Proof.
  apply (cross_taxa_weight_plot_IndexError (HF:=tenths) weights_loader
           ["a.csv"; "b.csv"; "c.csv"; "d.csv"; "e.csv"]).
  - simpl. lia.
  - intros f _. by exists weights_rows.
Defined.

(** ** [ab_class_test_plot] *)

Section ab_class_test_plot_properties.
Context `{HF : Float F}.
Variable genfromtxt_sad : string → result (list sad_row).
Variable list_set : list string → list string.
Variable linregress : list Z → list Z → result (@regression F).
Variable plot_color_by_pt_dens : list Z → list Z → Z → Z → result unit.
Hypothesis list_set_distinct : ∀ x, list_set x ≡ₚ remove_dups x.

Lemma axis_max_nonempty (pred obs : list Z) :
  pred ≠ [] → obs ≠ [] → ∃ m, axis_max pred obs = Ok m.
Proof. destruct pred, obs; try done. simpl. eauto. Qed.

Lemma ab_class_test_plot_loop_Ok input ifile classes : ∀ i regr_results,
  genfromtxt_sad input = Ok ifile →
  ifile ≠ [] →
  (∀ pred obs, ∃ r, linregress pred obs = Ok r) →
  (∀ pred obs a j, plot_color_by_pt_dens pred obs a j = Ok ()) →
  (∀ c, c ∈ classes → c ∈ abundance_classes) →
  ∃ rs calls,
    ab_class_test_plot_loop genfromtxt_sad list_set linregress
      plot_color_by_pt_dens input i classes regr_results
    = (Ok (regr_results ++ rs), calls)
    ∧ Forall2 (λ c r, ∃ pred obs,
                 rare_sp_count genfromtxt_sad list_set input c = Ok (pred, obs)
                 ∧ linregress pred obs = Ok r) classes rs
    ∧ titles calls = classes.
Proof.
  induction classes as [|c classes IH];
    intros i rr Hin Hrows Hlin Hplot Hclasses.
  - exists [], []. simpl. rewrite app_nil_r. split_and!; [done| |done].
    constructor.
  - cbn [ab_class_test_plot_loop].
    pose proof (rare_sp_count_map genfromtxt_sad list_set list_set_distinct
                  input c ifile (Hclasses c ltac:(left)) Hin) as Hcount.
    rewrite Hcount.
    assert (list_set (sad_site <$> ifile) ≠ []) as Hsites.
    { apply (list_set_nonempty list_set list_set_distinct).
      by destruct ifile. }
    cbv beta iota.
    match goal with
    | |- context [linregress ?pc ?oc] =>
        destruct (Hlin pc oc)
          as [[[[[slope intercept] r_value] p_value] std_err] Hr];
        rewrite Hr, Hplot;
        destruct (axis_max_nonempty pc oc) as [m ->];
        [by destruct (list_set (sad_site <$> ifile))
        |by destruct (list_set (sad_site <$> ifile))|]
    end.
    destruct (IH (i + 1)
                (rr ++ [(slope, intercept, r_value, p_value, std_err)]))
      as (rs & calls & -> & Hrs & Ht); try done.
    { intros c' Hc'. apply Hclasses. by right. }
    eexists (_ :: rs), _. rewrite <-app_assoc. split; [done|]. split.
    + constructor; [|done]. eauto.
    + unfold titles in *. rewrite bind_app, Ht. done.
Qed.

(** X16. On a table with at least one row, with a regression and a density
    plot that return, [ab_class_test_plot] returns four regressions, those
    of the predicted and observed values that [rare_sp_count] gives for
    ['singleton'], ['doubleton'], ['rare'] and ['dominant'] in this order,
    after drawing one panel per class under these titles. *)
Theorem ab_class_test_plot_returns input ifile :
  genfromtxt_sad input = Ok ifile →
  ifile ≠ [] →
  (∀ pred obs, ∃ r, linregress pred obs = Ok r) →
  (∀ pred obs a j, plot_color_by_pt_dens pred obs a j = Ok ()) →
  ∃ regr_results calls,
    ab_class_test_plot genfromtxt_sad list_set linregress
      plot_color_by_pt_dens input = (Ok regr_results, calls)
    ∧ Forall2 (λ c r, ∃ pred obs,
                 rare_sp_count genfromtxt_sad list_set input c = Ok (pred, obs)
                 ∧ linregress pred obs = Ok r)
        ["singleton"; "doubleton"; "rare"; "dominant"] regr_results
    ∧ titles calls = ["singleton"; "doubleton"; "rare"; "dominant"]
    ∧ last calls = Some plt_show.
Proof.
  intros Hin Hrows Hlin Hplot. unfold ab_class_test_plot.
  destruct (ab_class_test_plot_loop_Ok input ifile abundance_classes 0 []
              Hin Hrows Hlin Hplot) as (rs & calls & -> & Hrs & Ht); [done|].
  simpl. eexists _, _. split; [done|]. split_and!; [done| |].
  - unfold titles in *. rewrite bind_app, Ht. done.
  - by rewrite last_app.
Qed.

(** X17. On a table without rows [ab_class_test_plot] never returns,
    although [rare_sp_count] does: it ends with an exception before
    anything is drawn, and when the regression and the density plot of the
    two empty lists return, with the [ValueError] of the maximum of an empty
    list. *)
Theorem ab_class_test_plot_no_rows input :
  genfromtxt_sad input = Ok [] →
  ∃ e,
    ab_class_test_plot genfromtxt_sad list_set linregress
      plot_color_by_pt_dens input = (Raise e, [])
    ∧ ((∃ r, linregress [] [] = Ok r) →
       plot_color_by_pt_dens [] [] 1 0 = Ok () →
       e = ValueError).
Proof.
  intros Hin. unfold ab_class_test_plot, abundance_classes.
  cbn [ab_class_test_plot_loop].
  rewrite (rare_sp_count_no_rows genfromtxt_sad list_set input "singleton"
             list_set_distinct Hin).
  destruct (linregress [] [])
    as [[[[[slope intercept] r_value] p_value] std_err]|e] eqn:Hr.
  - destruct (plot_color_by_pt_dens [] [] 1 0) as [[]|e] eqn:Hp.
    + simpl. exists ValueError. by split.
    + exists e. split; [done|]. by intros _ ?.
  - exists e. split; [done|]. by intros [? ?].
Qed.

End ab_class_test_plot_properties.

Lemma ab_class_test_plot_returns_witness :
  let linregress : list Z → list Z → result (@regression Z) :=
    λ _ _, Ok (1, 0, 9, 0, 0) in
  (∀ x : list string, remove_dups x ≡ₚ remove_dups x)
  ∧ two_site_rows ≠ []
  ∧ ∃ regr_results calls,
      ab_class_test_plot (H:=tenths) (λ _, Ok two_site_rows) remove_dups
        linregress (λ _ _ _ _, Ok ()) "sads_obs_pred.csv"
      = (Ok regr_results, calls)
      ∧ length regr_results = 4%nat
      ∧ titles calls = ["singleton"; "doubleton"; "rare"; "dominant"]
      ∧ last calls = Some plt_show.
Proof.
  intros linregress.
  assert (∀ x : list string, remove_dups x ≡ₚ remove_dups x) as H1 by done.
  assert (two_site_rows ≠ []) as H2 by discriminate.
  split_and!; [done..|].
  destruct (ab_class_test_plot_returns (HF:=tenths) (λ _, Ok two_site_rows)
              remove_dups linregress (λ _ _ _ _, Ok ()) H1
              "sads_obs_pred.csv" two_site_rows eq_refl H2)
    as (regr_results & calls & Hrun & Hregr & Htitles & Hlast).
  - intros pred obs. by eexists.
  - done.
  - exists regr_results, calls. split_and!; [done| |done..].
    by apply Forall2_length in Hregr.
Defined.

Lemma ab_class_test_plot_no_rows_witness :
  let linregress : list Z → list Z → result (@regression Z) :=
    λ _ _, Ok (1, 0, 9, 0, 0) in
  ∃ e,
    ab_class_test_plot (H:=tenths) (λ _, Ok []) remove_dups linregress
      (λ _ _ _ _, Ok ()) "sads_obs_pred.csv" = (Raise e, [])
    ∧ ((∃ r, linregress [] [] = Ok r) → Ok () = Ok () → e = ValueError).
Proof.
  intros linregress.
  assert (∀ x : list string, remove_dups x ≡ₚ remove_dups x) as H1 by done.
  exact (ab_class_test_plot_no_rows (HF:=tenths) (λ _, Ok []) remove_dups
           linregress (λ _ _ _ _, Ok ()) H1 "sads_obs_pred.csv" eq_refl).
Defined.

(** ** [multi_taxa_conf_hulls] *)

Section multi_taxa.
Context `{HF : Float F} `{HO : !FloatOrder F}.
Variable genfromtxt_sad : string → result (list sad_row).
Variable confidence_hull :
  list Z → list Z → Z → Z → string → F → result (list F).
Variable np_max : list F → result F.
Hypothesis confidence_hull_returns : ∀ pred obs radius logscale color alpha,
  ∃ hull_points,
    confidence_hull pred obs radius logscale color alpha = Ok hull_points.
Hypothesis np_max_returns : ∀ hull_points, ∃ m, np_max hull_points = Ok m.

Lemma float_le_refl (x : F) : float_le x x.
Proof. by destruct (float_le_total x x). Qed.

Lemma max2_upper (a b : F) : float_le a (max2 a b) ∧ float_le b (max2 a b).
Proof.
  unfold max2. case_decide as Hab.
  - apply float_lt_le in Hab. split; [|apply float_le_refl].
    by destruct (float_le_total a b).
  - rewrite float_lt_le in Hab. apply dec_stable in Hab.
    split; [apply float_le_refl|done].
Qed.

Lemma hull_colors_lookup j :
  (j < 5)%nat →
  ∃ color, hull_colors !! j = Some color
           ∧ drop j hull_colors = color :: drop (S j) hull_colors.
Proof.
  intros Hj. destruct j as [|[|[|[|[|j]]]]]; try lia; simpl; eauto.
Qed.

Lemma not_show_hull color alpha (calls : list (plt_call F)) :
  plt_show ∉ calls → plt_show ∉ macroeco_confidence_hull color alpha :: calls.
Proof. intros Hs [?|?]%elem_of_cons; [discriminate|done]. Qed.

Lemma multi_taxa_conf_hulls_loop_Returned logscale files : ∀ j plotmax,
  (j + length files ≤ 5)%nat →
  (∀ f, f ∈ files → ∃ infile, genfromtxt_sad f = Ok infile) →
  ∃ plotmax' calls,
    multi_taxa_conf_hulls_loop genfromtxt_sad confidence_hull np_max logscale
      (Z.of_nat j) files plotmax = (Returned plotmax', calls)
    ∧ hull_colors_of calls = take (length files) (drop j hull_colors)
    ∧ float_le plotmax plotmax'
    ∧ (∀ k f m, files !! k = Some f →
         hull_max genfromtxt_sad confidence_hull np_max logscale
           (Z.of_nat (j + k)) f = Some m →
         float_le m plotmax')
    ∧ plt_show ∉ calls.
Proof.
  induction files as [|f files IH]; intros j plotmax Hj Hload.
  - exists plotmax, []. simpl. split_and!; try done.
    + apply float_le_refl.
    + apply not_elem_of_nil.
  - simpl in Hj. cbn [multi_taxa_conf_hulls_loop].
    destruct (Hload f) as [infile Hin]; [left|]. rewrite Hin, Nat2Z.id.
    destruct (hull_colors_lookup j) as (color & Hcolor & Hdrop); [lia|].
    rewrite Hcolor.
    set (alpha := float_sub _ _).
    destruct (confidence_hull_returns (pred <$> infile) (obs <$> infile) 2
                logscale color alpha) as [pts Hpts].
    rewrite Hpts. destruct (np_max_returns pts) as [m Hm]. rewrite Hm.
    replace (Z.of_nat j + 1) with (Z.of_nat (S j)) by lia.
    destruct (IH (S j) (max2 plotmax m))
      as (pm & calls & -> & Hc & Hle & Hmax & Hs);
      [lia|intros; apply Hload; by right|].
    destruct (max2_upper plotmax m) as [Hp Hm'].
    eexists _, _. split; [done|]. split_and!.
    + unfold hull_colors_of in *. rewrite bind_cons, Hc, Hdrop. done.
    + by apply (float_le_trans _ (max2 plotmax m)).
    + intros [|k] f' m' Hf' Hhull.
      * simpl in Hf'. simplify_eq. rewrite Nat.add_0_r in Hhull.
        unfold hull_max in Hhull.
        rewrite Hin, Nat2Z.id, Hcolor in Hhull. fold alpha in Hhull.
        rewrite Hpts, Hm in Hhull. simplify_eq.
        by apply (float_le_trans _ (max2 plotmax m')).
      * simpl in Hf'. apply (Hmax k f'); [done|].
        by replace (S j + k)%nat with (j + S k)%nat by lia.
    + by apply not_show_hull.
Qed.

Lemma multi_taxa_conf_hulls_loop_IndexError logscale files : ∀ j plotmax f6,
  (j ≤ 5)%nat →
  (∀ f, f ∈ take (5 - j) files → ∃ infile, genfromtxt_sad f = Ok infile) →
  files !! (5 - j)%nat = Some f6 →
  ∃ calls,
    multi_taxa_conf_hulls_loop genfromtxt_sad confidence_hull np_max logscale
      (Z.of_nat j) files plotmax
    = (match genfromtxt_sad f6 with
       | Ok _ => IndexError
       | Raise e => Failed e
       end, calls)
    ∧ hull_colors_of calls = drop j hull_colors
    ∧ plt_show ∉ calls.
Proof.
  induction files as [|f files IH]; intros j plotmax f6 Hj Hload Hf6; [done|].
  cbn [multi_taxa_conf_hulls_loop].
  destruct (decide (j = 5%nat)) as [->|Hj5].
  - simpl in Hf6. simplify_eq.
    destruct (genfromtxt_sad f6) as [infile|e].
    + exists []. split_and!; [done..|]. apply not_elem_of_nil.
    + exists []. split_and!; [done..|]. apply not_elem_of_nil.
  - replace (5 - j)%nat with (S (4 - j)) in * by lia.
    destruct (Hload f) as [infile Hin]; [left|]. rewrite Hin, Nat2Z.id.
    destruct (hull_colors_lookup j) as (color & Hcolor & Hdrop); [lia|].
    rewrite Hcolor.
    set (alpha := float_sub _ _).
    destruct (confidence_hull_returns (pred <$> infile) (obs <$> infile) 2
                logscale color alpha) as [pts Hpts].
    rewrite Hpts. destruct (np_max_returns pts) as [m Hm]. rewrite Hm.
    replace (Z.of_nat j + 1) with (Z.of_nat (S j)) by lia.
    destruct (IH (S j) (max2 plotmax m) f6) as (calls & -> & Hc & Hs);
      [lia| |by replace (5 - S j)%nat with (4 - j)%nat by lia|].
    { intros f' Hf'. apply Hload. right.
      by replace (4 - j)%nat with (5 - S j)%nat by lia. }
    eexists. split; [done|]. split.
    + unfold hull_colors_of in *. by rewrite bind_cons, Hc, Hdrop.
    + by apply not_show_hull.
Qed.

(** X18. With at most five files that load, [multi_taxa_conf_hulls]
    returns after drawing one hull per file, in the colours ['r'], ['g'],
    ['b'], ['k'], ['c'] in that order, and the upper limit of both axes is
    twice a value that is at least 0 and at least the maximum of every
    hull. *)
Theorem multi_taxa_conf_hulls_Returned input_filenames radius conf_interval
    logscale :
  (length input_filenames ≤ 5)%nat →
  (∀ f, f ∈ input_filenames → ∃ infile, genfromtxt_sad f = Ok infile) →
  ∃ plotmax calls,
    multi_taxa_conf_hulls genfromtxt_sad confidence_hull np_max
      input_filenames radius conf_interval logscale = (Returned (), calls)
    ∧ hull_colors_of calls = take (length input_filenames) hull_colors
    ∧ plt_xlim_float (float_dec 5 1) (float_mul plotmax (float_of_int 2))
      ∈ calls
    ∧ plt_ylim_float (float_dec 5 1) (float_mul plotmax (float_of_int 2))
      ∈ calls
    ∧ float_le (float_of_int 0) plotmax
    ∧ (∀ k f m, input_filenames !! k = Some f →
         hull_max genfromtxt_sad confidence_hull np_max logscale
           (Z.of_nat k) f = Some m →
         float_le m plotmax)
    ∧ last calls = Some plt_show.
Proof.
  intros Hlen Hload. unfold multi_taxa_conf_hulls.
  destruct (multi_taxa_conf_hulls_loop_Returned logscale input_filenames 0
              (float_of_int 0))
    as (pm & calls & Hloop & Hc & Hle & Hmax & _); [done..|].
  change (Z.of_nat 0) with 0 in Hloop. rewrite Hloop.
  exists pm. eexists. split; [done|]. split_and!; try done.
  - unfold hull_colors_of in *. rewrite bind_app, Hc. simpl.
    by rewrite app_nil_r.
  - apply elem_of_app. right. right. left.
  - apply elem_of_app. right. do 2 right. left.
  - by rewrite last_app.
Qed.

(** X19. With more than five files, the first five of which load,
    [multi_taxa_conf_hulls] draws the five hulls and then reads the sixth
    file before it looks up a colour for it: it ends with the exception of
    the loader if that file does not load, and with an [IndexError]
    otherwise; the figure is never shown. *)
Theorem multi_taxa_conf_hulls_IndexError input_filenames radius conf_interval
    logscale f6 :
  (∀ f, f ∈ take 5 input_filenames → ∃ infile, genfromtxt_sad f = Ok infile) →
  input_filenames !! 5%nat = Some f6 →
  ∃ calls,
    multi_taxa_conf_hulls genfromtxt_sad confidence_hull np_max
      input_filenames radius conf_interval logscale
    = (match genfromtxt_sad f6 with
       | Ok _ => IndexError
       | Raise e => Failed e
       end, calls)
    ∧ hull_colors_of calls = hull_colors
    ∧ plt_show ∉ calls.
Proof.
  intros Hload Hf6. unfold multi_taxa_conf_hulls.
  destruct (multi_taxa_conf_hulls_loop_IndexError logscale input_filenames 0
              (float_of_int 0) f6) as (calls & Hloop & Hc & Hs); [lia|done..|].
  change (Z.of_nat 0) with 0 in Hloop. rewrite Hloop.
  exists calls. by destruct (genfromtxt_sad f6).
Qed.

End multi_taxa.

Lemma multi_taxa_conf_hulls_Returned_witness :
  let np_max : list Z → result Z := λ pts, Ok (maximum pts) in
  ∃ plotmax calls,
    multi_taxa_conf_hulls (H:=tenths) (λ _, Ok two_site_rows) one_point_hull
      np_max ["cbc.csv"; "bbs.csv"] 2 95 0 = (Returned (), calls)
    ∧ hull_colors_of calls = take 2 hull_colors
    ∧ plt_xlim_float 5 (plotmax * 20 / 10) ∈ calls
    ∧ plt_ylim_float 5 (plotmax * 20 / 10) ∈ calls
    ∧ 0 ≤ plotmax
    ∧ (∀ k f m, ["cbc.csv"; "bbs.csv"] !! k = Some f →
         hull_max (H:=tenths) (λ _, Ok two_site_rows) one_point_hull np_max 0
           (Z.of_nat k) f = Some m →
         m ≤ plotmax)
    ∧ last calls = Some plt_show.
Proof.
  intros np_max.
  apply (multi_taxa_conf_hulls_Returned (HF:=tenths) (HO:=tenths_order)
           (λ _, Ok two_site_rows) one_point_hull np_max).
  - intros. by eexists.
  - intros. by eexists.
  - simpl. lia.
  - intros f _. by eexists.
Defined.

Lemma multi_taxa_conf_hulls_IndexError_witness :
  let np_max : list Z → result Z := λ pts, Ok (maximum pts) in
  ∃ calls,
    multi_taxa_conf_hulls (H:=tenths) (λ _, Ok two_site_rows) one_point_hull
      np_max ["a.csv"; "b.csv"; "c.csv"; "d.csv"; "e.csv"; "f.csv"] 2 95 0
    = (IndexError, calls)
    ∧ hull_colors_of calls = hull_colors
    ∧ plt_show ∉ calls.
Proof.
  intros np_max.
  apply (multi_taxa_conf_hulls_IndexError (HF:=tenths)
           (λ _, Ok two_site_rows) one_point_hull np_max
           ltac:(intros; by eexists) ltac:(intros; by eexists)
           ["a.csv"; "b.csv"; "c.csv"; "d.csv"; "e.csv"; "f.csv"] 2 95 0
           "f.csv").
  - intros f _. by eexists.
  - done.
Defined.
